(** * locomapper: landmark store and averaging localisation

    A shallow embedding of [locomapper/data_models.py],
    [locomapper/landmark_store.py], [locomapper/localisation.py] and of the
    [WifiGlobalLocalisation.localise_multiple] consumer found in the
    examples, followed by the properties the specification states about
    them; then the position sources of the WiGLE and OpenCelliD examples and
    further properties of the code.

    Conventions.
    - Python [float] is IEEE 754 binary64: Rocq's primitive [float], with
      [PrimFloat.add] and [PrimFloat.div]; equality of floats below is
      Leibniz equality of the binary64 value.
    - Python [dict] keyed by [str] is stdpp's [gmap string]; a [tuple] of
      records is a [list].
    - Methods are state transformers on the [World] (the store's [_storage]
      and the files on disk) that either return or raise. *)

From Stdlib Require Import PrimFloat.
From Stdlib Require Uint63.
From Stdlib Require Import ZArith String Ascii DecimalString DecimalNat.
From stdpp Require Import gmap strings list fin_maps.

Local Open Scope string_scope.
Local Open Scope list_scope.
Set Warnings "-register-all,-inexact-float,-clear-no-such-hyp".

Abbreviation float := PrimFloat.float.

(** ** Exceptions and the method monad *)

Inductive exn :=
  | FileNotFoundError
  | JSONDecodeError
  | AttributeError
  | TypeError
  | ValidationError
  | ZeroDivisionError
  | PermissionError.

Inductive outcome (A : Type) :=
  | Return (a : A)
  | Raise (e : exn).
Arguments Return {A} a.
Arguments Raise {A} e.

(** A method body: runs on a state, returns or raises, leaves a state. *)
Definition Py (St A : Type) : Type := St -> outcome A * St.

Definition ret {St A} (a : A) : Py St A := fun s => (Return a, s).

Definition raise {St A} (e : exn) : Py St A := fun s => (Raise e, s).

Definition bind {St A B} (m : Py St A) (k : A -> Py St B) : Py St B :=
  fun s =>
    match m s with
    | (Return a, s') => k a s'
    | (Raise e, s') => (Raise e, s')
    end.

Definition gets {St A} (f : St -> A) : Py St A := fun s => (Return (f s), s).

Definition modify {St} (f : St -> St) : Py St unit := fun s => (Return tt, f s).

(** Lifting of a computation that touches no state. *)
Definition lift {St A} (o : outcome A) : Py St A := fun s => (o, s).

#[global] Instance Py_ret {St} : MRet (Py St) := fun A => @ret St A.
#[global] Instance Py_bind {St} : MBind (Py St) := fun A B k m => @bind St A B m k.

(** [for x in xs: acc = f acc x], where the body may raise. *)
Fixpoint for_each {St A B} (f : B -> A -> Py St B) (acc : B) (xs : list A)
  : Py St B :=
  match xs with
  | [] => ret acc
  | x :: xs' => acc' ← f acc x; for_each f acc' xs'
  end.

(** The same for a generator expression: [tuple(f x for x in xs)]. *)
Fixpoint map_outcome {A B} (f : A -> outcome B) (xs : list A)
  : outcome (list B) :=
  match xs with
  | [] => Return []
  | x :: xs' =>
      match f x with
      | Raise e => Raise e
      | Return y =>
          match map_outcome f xs' with
          | Raise e => Raise e
          | Return ys => Return (y :: ys)
          end
      end
  end.

(** ** Floats *)

(** [float(n)] for the length [n] of a tuple.  A length is below [2^63], the
    range on which [of_uint63] is the correctly rounded conversion. *)
Definition float_of_len (n : nat) : float :=
  PrimFloat.of_uint63 (Uint63.of_Z (Z.of_nat n)).

(** [x / n] with [x] a float and [n] a length: Python raises on [n = 0]. *)
Definition truediv (x : float) (n : nat) : outcome float :=
  match n with
  | O => Raise ZeroDivisionError
  | S _ => Return (PrimFloat.div x (float_of_len n))
  end.

(** ** Values read from and written to JSON documents *)

Inductive pyobj :=
  | JNone
  | JBool (b : bool)
  | JInt (z : Z)
  | JFloat (f : float)
  | JStr (s : string)
  | JList (l : list pyobj)
  | JDict (d : list (string * pyobj)).

(** Keyword lookup in a [dict] given by its items; as in a Python [dict]
    built item by item, the last binding of a key is the one that counts. *)
Fixpoint kwarg (k : string) (d : list (string * pyobj)) : option pyobj :=
  match d with
  | [] => None
  | (k', v) :: d' =>
      match kwarg k d' with
      | Some w => Some w
      | None => if String.eqb k k' then Some v else None
      end
  end.

(** Iterating over a value: lists give their elements, a [str] its
    characters, a [dict] its keys; anything else is not iterable. *)
Definition py_iter (v : pyobj) : outcome (list pyobj) :=
  match v with
  | JList l => Return l
  | JStr s => Return (map (fun c => JStr (String c EmptyString)) (list_ascii_of_string s))
  | JDict d => Return (map (fun kv => JStr (fst kv)) d)
  | _ => Raise TypeError
  end.

(** A file holds text; [json.load] either parses it to a value or raises.
    The text layer of [json.dump]/[json.load] is the library's: a document
    is represented by the value it parses to. A file may also be there and
    not be readable. *)
Inductive file :=
  | Malformed
  | Document (j : pyobj)
  | Unreadable.

Definition json_dump (j : pyobj) : file := Document j.

Definition json_load (f : file) : outcome pyobj :=
  match f with
  | Malformed => Raise JSONDecodeError
  | Document j => Return j
  | Unreadable => Raise PermissionError
  end.

(** ** Field validation (pydantic)

    The model classes of [data_models.py] are plain [BaseModel] subclasses:
    required fields of type [str] and [float], no [Config].  The library's
    field validators are kept abstract but for what is fixed of them: a
    value already of the declared type is accepted as it is; [null], a list
    and an object are values neither field type can take; and a [float]
    field converts a string of decimal digits to the number it writes. What
    they do with other values of another type is the library's business. *)

(** Values no field of the two models can take. *)
Definition unfit (v : pyobj) : bool :=
  match v with
  | JNone | JList _ | JDict _ => true
  | _ => false
  end.

(** The decimal digits of a number. *)
Definition decimal (n : nat) : string := NilEmpty.string_of_uint (Nat.to_uint n).

Class Pydantic := {
  str_validator : pyobj -> option string;
  float_validator : pyobj -> option float;
  str_validator_str : forall s, str_validator (JStr s) = Some s;
  float_validator_float : forall f, float_validator (JFloat f) = Some f;
  str_validator_unfit : forall v, unfit v = true -> str_validator v = None;
  float_validator_unfit : forall v, unfit v = true -> float_validator v = None;
  float_validator_decimal : forall n,
    (Z.of_nat n < 2 ^ 53)%Z ->
    float_validator (JStr (decimal n)) = Some (float_of_len n)
}.

(** A field is required: it is looked up among the keyword arguments and
    validated; keyword arguments that name no field are ignored. *)
Definition required {A} (validator : pyobj -> option A)
    (name : string) (kwargs : list (string * pyobj)) : option A :=
  kwarg name kwargs ≫= validator.

(** What the store needs of its [data_model]: the [identifier] attribute of
    a record, [model.dict()], and the validating constructor called on
    keyword arguments ([None] for a [ValidationError]). *)
Class BaseModel (R : Type) := {
  identifier : R -> string;
  dict : R -> list (string * pyobj);
  validate : list (string * pyobj) -> option R
}.

Module GeodeticLandmark.
Record t := mk {
  identifier : string;
  latitude_deg : float;
  longitude_deg : float;
  altitude_m : float;
  latitude_uncertainty_deg : float;
  longitude_uncertainty_deg : float;
  altitude_uncertainty_m : float
}.

Definition dict (r : t) : list (string * pyobj) :=
  [ ("identifier", JStr (identifier r));
    ("latitude_deg", JFloat (latitude_deg r));
    ("longitude_deg", JFloat (longitude_deg r));
    ("altitude_m", JFloat (altitude_m r));
    ("latitude_uncertainty_deg", JFloat (latitude_uncertainty_deg r));
    ("longitude_uncertainty_deg", JFloat (longitude_uncertainty_deg r));
    ("altitude_uncertainty_m", JFloat (altitude_uncertainty_m r)) ].

Definition validate `{Pydantic} (kwargs : list (string * pyobj)) : option t :=
  i ← required str_validator "identifier" kwargs;
  lat ← required float_validator "latitude_deg" kwargs;
  lon ← required float_validator "longitude_deg" kwargs;
  alt ← required float_validator "altitude_m" kwargs;
  ulat ← required float_validator "latitude_uncertainty_deg" kwargs;
  ulon ← required float_validator "longitude_uncertainty_deg" kwargs;
  ualt ← required float_validator "altitude_uncertainty_m" kwargs;
  Some (mk i lat lon alt ulat ulon ualt).
End GeodeticLandmark.

Module CartesianLandmark.
Record t := mk {
  identifier : string;
  x_m : float;
  y_m : float;
  z_m : float;
  uncertainty_m : float
}.

Definition dict (r : t) : list (string * pyobj) :=
  [ ("identifier", JStr (identifier r));
    ("x_m", JFloat (x_m r));
    ("y_m", JFloat (y_m r));
    ("z_m", JFloat (z_m r));
    ("uncertainty_m", JFloat (uncertainty_m r)) ].

Definition validate `{Pydantic} (kwargs : list (string * pyobj)) : option t :=
  i ← required str_validator "identifier" kwargs;
  x ← required float_validator "x_m" kwargs;
  y ← required float_validator "y_m" kwargs;
  z ← required float_validator "z_m" kwargs;
  u ← required float_validator "uncertainty_m" kwargs;
  Some (mk i x y z u).
End CartesianLandmark.

#[global] Instance GeodeticLandmark_model `{Pydantic} : BaseModel GeodeticLandmark.t := {
  identifier := GeodeticLandmark.identifier;
  dict := GeodeticLandmark.dict;
  validate := GeodeticLandmark.validate
}.

#[global] Instance CartesianLandmark_model `{Pydantic} : BaseModel CartesianLandmark.t := {
  identifier := CartesianLandmark.identifier;
  dict := CartesianLandmark.dict;
  validate := CartesianLandmark.validate
}.

(** ** The world a store lives in *)

(** The state the methods act on: the store's [_storage] dictionary and the
    files on disk, by path.  A path is taken as resolved (one string per
    file); directories, permissions to write and disk space are not
    modelled: writing a file succeeds. *)
Record World (R : Type) := mkWorld {
  _storage : gmap string (list R);
  files : gmap string file
}.
Arguments mkWorld {R} _ _.
Arguments _storage {R} _.
Arguments files {R} _.

Definition set_storage {R} (st : gmap string (list R)) : Py (World R) unit :=
  modify (fun w => mkWorld st (files w)).

Definition write_file {R} (path : string) (f : file) : Py (World R) unit :=
  modify (fun w => mkWorld (_storage w) (<[path := f]> (files w))).

Definition read_file {R} (path : string) : Py (World R) file :=
  fun w =>
    match files w !! path with
    | Some Unreadable => (Raise PermissionError, w)
    | Some f => (Return f, w)
    | None => (Raise FileNotFoundError, w)
    end.

(** [d[k] = v] on a dictionary given by its items: a key already there
    keeps its place and takes the new value, a new key goes to the end. *)
Fixpoint dict_set (k : string) (v : pyobj) (d : list (string * pyobj))
  : list (string * pyobj) :=
  match d with
  | [] => [(k, v)]
  | (k', v') :: d' =>
      if String.eqb k k' then (k', v) :: d' else (k', v') :: dict_set k v d'
  end.

(** The items of a dictionary that [json.load] built from an object, pair
    after pair: a key written twice stays where it first was and keeps its
    last value only. *)
Definition last_bindings (d : list (string * pyobj)) : list (string * pyobj) :=
  foldl (fun acc kv => dict_set (fst kv) (snd kv) acc) [] d.

(** [raw_data.items()]: only a [dict] has them. *)
Definition items (raw_data : pyobj) : outcome (list (string * pyobj)) :=
  match raw_data with
  | JDict d => Return (last_bindings d)
  | _ => Raise AttributeError
  end.

(** ** landmark_store.py *)

Module LandmarkStore.
Section methods.
Context {R : Type} `{BaseModel R}.

(** [LandmarkStore(data_model)]: an empty [_storage]. *)
Definition __init__ (disk : gmap string file) : World R := mkWorld ∅ disk.

Definition get (identifier : string) : Py (World R) (list R) :=
  gets (fun w => default [] (_storage w !! identifier)).

Definition put (datum : R) : Py (World R) bool :=
  let ident := identifier datum in
  st ← gets _storage;
  match st !! ident with
  | Some existing_data =>
      _ ← set_storage (<[ident := existing_data ++ [datum]]> st);
      ret true
  | None =>
      _ ← set_storage (<[ident := [datum]]> st);
      ret false
  end.

Definition __len__ : Py (World R) nat :=
  gets (fun w => size (_storage w)).

(** [{str(identifier): [model.dict() for model in models_tuple] ...}];
    the keys are already [str]. *)
Definition serializable_data (st : gmap string (list R)) : pyobj :=
  JDict (map (fun kv => (fst kv, JList (map (fun model => JDict (dict model)) (snd kv))))
           (map_to_list st)).

Definition save (save_file : string) : Py (World R) unit :=
  st ← gets _storage;
  write_file save_file (json_dump (serializable_data st)).

(** The constructor applied to a [model_dict] passed as keyword
    arguments, which must be a mapping. *)
Definition construct (model_dict : pyobj) : outcome R :=
  match model_dict with
  | JDict kwargs =>
      match validate kwargs with
      | Some r => Return r
      | None => Raise ValidationError
      end
  | _ => Raise TypeError
  end.

(** [tuple(construct model_dict for model_dict in models_list)]. *)
Definition models_tuple (models_list : pyobj) : outcome (list R) :=
  match py_iter models_list with
  | Raise e => Raise e
  | Return l => map_outcome construct l
  end.

(** The dictionary comprehension of [load], item by item. *)
Fixpoint rebuild (its : list (string * pyobj)) (acc : gmap string (list R))
  : outcome (gmap string (list R)) :=
  match its with
  | [] => Return acc
  | (ident, models_list) :: rest =>
      match models_tuple models_list with
      | Raise e => Raise e
      | Return t => rebuild rest (<[ident := t]> acc)
      end
  end.

Definition load (load_file : string) : Py (World R) nat :=
  f ← read_file load_file;
  raw_data ← lift (json_load f);
  its ← lift (items raw_data);
  st ← lift (rebuild its ∅);
  _ ← set_storage st;
  ret (size st).
End methods.
End LandmarkStore.

(** ** localisation.py *)

Definition default_latitude_uncertainty_deg : float := 1e-6%float.
Definition default_longitude_uncertainty_deg : float := 1e-6%float.
Definition default_altitude_uncertainty_m : float := 10.0%float.
Definition default_uncertainty_m : float := 0.1%float.

Module GlobalLocalisation.
Section methods.
Context `{Pydantic}.

Definition __init__ (disk : gmap string file) : World GeodeticLandmark.t :=
  LandmarkStore.__init__ disk.

Definition add_data (identifier : string)
    (latitude_deg longitude_deg altitude_m : float)
    (latitude_uncertainty_deg longitude_uncertainty_deg altitude_uncertainty_m : float)
  : Py (World GeodeticLandmark.t) unit :=
  let landmark :=
    GeodeticLandmark.mk identifier latitude_deg longitude_deg altitude_m
      latitude_uncertainty_deg longitude_uncertainty_deg altitude_uncertainty_m in
  _ ← LandmarkStore.put landmark;
  ret tt.

Definition get_data (identifier : string)
  : Py (World GeodeticLandmark.t) (list GeodeticLandmark.t) :=
  LandmarkStore.get identifier.

Definition __len__ : Py (World GeodeticLandmark.t) nat :=
  LandmarkStore.__len__.

(** One pass of the averaging loop: the three running sums. *)
Definition accumulate (acc : float * float * float) (landmark : GeodeticLandmark.t)
  : float * float * float :=
  let '(latitude_deg, longitude_deg, altitude_m) := acc in
  (PrimFloat.add latitude_deg (GeodeticLandmark.latitude_deg landmark),
   PrimFloat.add longitude_deg (GeodeticLandmark.longitude_deg landmark),
   PrimFloat.add altitude_m (GeodeticLandmark.altitude_m landmark)).

Definition localise (identifier : string)
  : Py (World GeodeticLandmark.t) (option GeodeticLandmark.t) :=
  landmark_tuple ← get_data identifier;
  if Nat.eqb (length landmark_tuple) 0 then ret None
  else
    let '(latitude_deg, longitude_deg, altitude_m) :=
      foldl accumulate (0%float, 0%float, 0%float) landmark_tuple in
    latitude_deg ← lift (truediv latitude_deg (length landmark_tuple));
    longitude_deg ← lift (truediv longitude_deg (length landmark_tuple));
    altitude_m ← lift (truediv altitude_m (length landmark_tuple));
    ret (Some (GeodeticLandmark.mk identifier latitude_deg longitude_deg altitude_m
                 1e-6%float 1e-6%float 10.0%float)).

Definition save (filename : string) : Py (World GeodeticLandmark.t) unit :=
  LandmarkStore.save filename.

Definition load (filename : string) : Py (World GeodeticLandmark.t) unit :=
  _ ← LandmarkStore.load filename;
  ret tt.
End methods.
End GlobalLocalisation.

Module CartesianLocalisation.
Section methods.
Context `{Pydantic}.

Definition __init__ (disk : gmap string file) : World CartesianLandmark.t :=
  LandmarkStore.__init__ disk.

Definition add_data (identifier : string) (x_m y_m z_m uncertainty_m : float)
  : Py (World CartesianLandmark.t) unit :=
  let landmark := CartesianLandmark.mk identifier x_m y_m z_m uncertainty_m in
  _ ← LandmarkStore.put landmark;
  ret tt.

Definition get_data (identifier : string)
  : Py (World CartesianLandmark.t) (list CartesianLandmark.t) :=
  LandmarkStore.get identifier.

Definition __len__ : Py (World CartesianLandmark.t) nat :=
  LandmarkStore.__len__.

Definition accumulate (acc : float * float * float) (landmark : CartesianLandmark.t)
  : float * float * float :=
  let '(x_m, y_m, z_m) := acc in
  (PrimFloat.add x_m (CartesianLandmark.x_m landmark),
   PrimFloat.add y_m (CartesianLandmark.y_m landmark),
   PrimFloat.add z_m (CartesianLandmark.z_m landmark)).

Definition localise (identifier : string)
  : Py (World CartesianLandmark.t) (option CartesianLandmark.t) :=
  landmark_tuple ← get_data identifier;
  if Nat.eqb (length landmark_tuple) 0 then ret None
  else
    let '(x_m, y_m, z_m) :=
      foldl accumulate (0%float, 0%float, 0%float) landmark_tuple in
    x_m ← lift (truediv x_m (length landmark_tuple));
    y_m ← lift (truediv y_m (length landmark_tuple));
    z_m ← lift (truediv z_m (length landmark_tuple));
    ret (Some (CartesianLandmark.mk identifier x_m y_m z_m 0.1%float)).

Definition save (filename : string) : Py (World CartesianLandmark.t) unit :=
  LandmarkStore.save filename.

Definition load (filename : string) : Py (World CartesianLandmark.t) unit :=
  _ ← LandmarkStore.load filename;
  ret tt.
End methods.
End CartesianLocalisation.

(** ** examples/wifi_gps.py (the same class in the other examples) *)

Module WifiGlobalLocalisation.
Section methods.
Context `{Pydantic}.

(** [hashlib.md5(text.encode()).hexdigest()], the library's. *)
Variable md5_hexdigest : string -> string.

Definition hash_wifi (ssid mac : string) : string :=
  md5_hexdigest (ssid ++ mac)%string.

Definition add_wifi_data (ssid mac : string)
    (latitude_deg longitude_deg altitude_m : float)
  : Py (World GeodeticLandmark.t) unit :=
  let identifier := hash_wifi ssid mac in
  GlobalLocalisation.add_data identifier latitude_deg longitude_deg altitude_m
    default_latitude_uncertainty_deg default_longitude_uncertainty_deg
    default_altitude_uncertainty_m.

Definition get_wifi_data (ssid mac : string)
  : Py (World GeodeticLandmark.t) (list GeodeticLandmark.t) :=
  let identifier := hash_wifi ssid mac in
  GlobalLocalisation.get_data identifier.

Definition localise_wifi (ssid mac : string)
  : Py (World GeodeticLandmark.t) (option GeodeticLandmark.t) :=
  let identifier := hash_wifi ssid mac in
  GlobalLocalisation.localise identifier.

(** The body of the loop of [localise_multiple]. *)
Definition accumulate (acc : float * float * float) (wifi : string * string)
  : Py (World GeodeticLandmark.t) (float * float * float) :=
  let '(latitude_deg, longitude_deg, altitude_m) := acc in
  let '(ssid, mac) := wifi in
  landmark ← localise_wifi ssid mac;
  match landmark with
  | Some landmark =>
      ret (PrimFloat.add latitude_deg (GeodeticLandmark.latitude_deg landmark),
           PrimFloat.add longitude_deg (GeodeticLandmark.longitude_deg landmark),
           PrimFloat.add altitude_m (GeodeticLandmark.altitude_m landmark))
  | None => ret (latitude_deg, longitude_deg, altitude_m)
  end.

Definition localise_multiple (wifi_tuple : list (string * string))
  : Py (World GeodeticLandmark.t) (float * float * float) :=
  sums ← for_each accumulate (0%float, 0%float, 0%float) wifi_tuple;
  let '(latitude_deg, longitude_deg, altitude_m) := sums in
  latitude_deg ← lift (truediv latitude_deg (length wifi_tuple));
  longitude_deg ← lift (truediv longitude_deg (length wifi_tuple));
  altitude_m ← lift (truediv altitude_m (length wifi_tuple));
  ret (latitude_deg, longitude_deg, altitude_m).
End methods.
End WifiGlobalLocalisation.

(** A family of field validators that accepts the values already of the
    declared type and, for a [float] field, the strings of decimal digits
    below [2^53]; nothing else. *)
Definition exact_str (v : pyobj) : option string :=
  match v with JStr s => Some s | _ => None end.

Definition exact_float (v : pyobj) : option float :=
  match v with
  | JFloat f => Some f
  | JStr EmptyString => None
  | JStr s =>
      match NilEmpty.uint_of_string s with
      | Some u =>
          if (Z.of_nat (Nat.of_uint u) <? 2 ^ 53)%Z
          then Some (float_of_len (Nat.of_uint u)) else None
      | None => None
      end
  | _ => None
  end.

Definition exact_float_decimal (n : nat) :
  (Z.of_nat n < 2 ^ 53)%Z -> exact_float (JStr (decimal n)) = Some (float_of_len n).
Proof.
  intros Hn. unfold exact_float, decimal.
  pose proof (NilEmpty.usu (Nat.to_uint n)) as Husu.
  destruct (NilEmpty.string_of_uint (Nat.to_uint n)) as [|c s] eqn:E.
  - cbn in Husu. injection Husu as Hnil.
    pose proof (Unsigned.of_to n) as Hof. rewrite <- Hnil in Hof. cbn in Hof.
    subst n. discriminate.
  - rewrite Husu, Unsigned.of_to.
    apply Z.ltb_lt in Hn. rewrite Hn. reflexivity.
Qed.

Definition exact_validators : Pydantic := {|
  str_validator := exact_str;
  float_validator := exact_float;
  str_validator_str := fun _ => eq_refl;
  float_validator_float := fun _ => eq_refl;
  str_validator_unfit := fun v =>
    match v with JNone | JList _ | JDict _ => fun _ => eq_refl | _ => fun H => False_ind _ (Bool.diff_false_true H) end;
  float_validator_unfit := fun v =>
    match v with JNone | JList _ | JDict _ => fun _ => eq_refl | _ => fun H => False_ind _ (Bool.diff_false_true H) end;
  float_validator_decimal := exact_float_decimal
|}.

(** ** The specification's vocabulary *)

(** A record's own [dict()] validates to that record. *)
Definition dict_validates (R : Type) `{BaseModel R} : Prop :=
  forall r : R, validate (dict r) = Some r.

(** Putting a sequence of records, one call after the other. *)
Definition put_all {R} `{BaseModel R} (data : list R) : Py (World R) unit :=
  for_each (fun _ datum => _ ← LandmarkStore.put datum; ret tt) tt data.

(** The arithmetic mean as the specification words it: the sum of the
    values, taken from [0.0] in the order of the records, divided by their
    count. *)
Definition float_sum (xs : list float) : float := foldl PrimFloat.add 0%float xs.

Definition arithmetic_mean (xs : list float) : float :=
  PrimFloat.div (float_sum xs) (float_of_len (length xs)).

(** The estimate the specification describes for a non-empty record
    sequence. *)
Definition geodetic_estimate (ident : string) (recs : list GeodeticLandmark.t)
  : GeodeticLandmark.t :=
  GeodeticLandmark.mk ident
    (arithmetic_mean (GeodeticLandmark.latitude_deg <$> recs))
    (arithmetic_mean (GeodeticLandmark.longitude_deg <$> recs))
    (arithmetic_mean (GeodeticLandmark.altitude_m <$> recs))
    default_latitude_uncertainty_deg
    default_longitude_uncertainty_deg
    default_altitude_uncertainty_m.

Definition cartesian_estimate (ident : string) (recs : list CartesianLandmark.t)
  : CartesianLandmark.t :=
  CartesianLandmark.mk ident
    (arithmetic_mean (CartesianLandmark.x_m <$> recs))
    (arithmetic_mean (CartesianLandmark.y_m <$> recs))
    (arithmetic_mean (CartesianLandmark.z_m <$> recs))
    default_uncertainty_m.

(** The estimates of the landmarks that resolve, in the order asked. *)
Definition resolved_estimates (md5_hexdigest : string -> string)
    (wifi_tuple : list (string * string)) (w : World GeodeticLandmark.t)
  : list GeodeticLandmark.t :=
  omap (fun wifi =>
          let ident := WifiGlobalLocalisation.hash_wifi md5_hexdigest (fst wifi) (snd wifi) in
          match default [] (_storage w !! ident) with
          | [] => None
          | recs => Some (geodetic_estimate ident recs)
          end) wifi_tuple.

(** The aggregate as the specification words it: the unweighted average of
    the estimates over the landmarks that did resolve. *)
Definition average_of_resolved (estimates : list GeodeticLandmark.t)
  : float * float * float :=
  (arithmetic_mean (GeodeticLandmark.latitude_deg <$> estimates),
   arithmetic_mean (GeodeticLandmark.longitude_deg <$> estimates),
   arithmetic_mean (GeodeticLandmark.altitude_m <$> estimates)).

(** The record schema as the specification words it: an object with exactly
    the fields of the variant, by name, the identifier a string and the
    others numbers. *)
Definition geodetic_fields : list string :=
  [ "identifier"; "latitude_deg"; "longitude_deg"; "altitude_m";
    "latitude_uncertainty_deg"; "longitude_uncertainty_deg";
    "altitude_uncertainty_m" ].

Definition cartesian_fields : list string :=
  [ "identifier"; "x_m"; "y_m"; "z_m"; "uncertainty_m" ].

Definition is_str (v : pyobj) : bool :=
  match v with JStr _ => true | _ => false end.

Definition is_num (v : pyobj) : bool :=
  match v with JInt _ | JFloat _ => true | _ => false end.

Definition has_field_set (fields : list string) (kwargs : list (string * pyobj)) : bool :=
  forallb (fun kv => existsb (String.eqb (fst kv)) fields) kwargs
  && forallb (fun f => existsb (fun kv => String.eqb f (fst kv)) kwargs) fields.

Definition matches_schema (fields : list string) (o : pyobj) : bool :=
  match o with
  | JDict kwargs =>
      has_field_set fields kwargs
      && forallb (fun kv => if String.eqb (fst kv) "identifier"
                            then is_str (snd kv) else is_num (snd kv)) kwargs
  | _ => false
  end.

(** ** Worked examples *)

Definition record_a1 : GeodeticLandmark.t :=
  GeodeticLandmark.mk "A" 0 0 0 1e-6 1e-6 10.

Definition record_a2 : GeodeticLandmark.t :=
  GeodeticLandmark.mk "A" 2 4 6 0.5 0.25 99.

Definition record_b : GeodeticLandmark.t :=
  GeodeticLandmark.mk "B" 7 8 9 1e-6 1e-6 10.

Definition point_p1 : CartesianLandmark.t :=
  CartesianLandmark.mk "P" 1 2 3 0.1.

Definition point_p2 : CartesianLandmark.t :=
  CartesianLandmark.mk "P" 3 6 9 7.

Definition world_a : World GeodeticLandmark.t :=
  mkWorld {[ "A" := [record_a1; record_a2] ]} ∅.

Definition world_p : World CartesianLandmark.t :=
  mkWorld {[ "P" := [point_p1; point_p2] ]} ∅.

(** A geodetic record object that also carries a field the variant does
    not declare, and a disk whose one file stores it under "A". *)
Definition geodetic_with_extra_field : pyobj :=
  JDict [ ("identifier", JStr "A");
          ("latitude_deg", JFloat 1);
          ("longitude_deg", JFloat 2);
          ("altitude_m", JFloat 3);
          ("latitude_uncertainty_deg", JFloat 1e-6);
          ("longitude_uncertainty_deg", JFloat 1e-6);
          ("altitude_uncertainty_m", JFloat 10);
          ("x_m", JFloat 5) ].

Definition disk_extra : gmap string file :=
  {[ "landmarks.json" := Document (JDict [ ("A", JList [geodetic_with_extra_field]) ]) ]}.

(** ** Further vocabulary *)

(** The shape of a store built by [put] alone: every key holds at least one
    record, and each record carries the key it is stored under. *)
Definition well_keyed {R} `{BaseModel R} (st : gmap string (list R)) : Prop :=
  forall k rs, st !! k = Some rs -> rs <> [] /\ Forall (fun r => identifier r = k) rs.

(** The inner loop of the training phase of the example scripts:
    [for ssid, mac in wifi_data: localiser.add_wifi_data(ssid, mac, ...)]
    at one position. *)
Definition add_scan `{Pydantic} (md5_hexdigest : string -> string)
    (wifi_data : list (string * string))
    (latitude_deg longitude_deg altitude_m : float)
  : Py (World GeodeticLandmark.t) unit :=
  for_each (fun _ wifi =>
              WifiGlobalLocalisation.add_wifi_data md5_hexdigest (fst wifi) (snd wifi)
                latitude_deg longitude_deg altitude_m)
           tt wifi_data.

(** ** examples/wifi_wigle.py and examples/wifi_opencellid.py: position sources

    These functions ask a web service; what the service answers is taken as
    given: a response has its [ok] flag and a body, and [res.json()] parses
    the body. What they print is left out. *)

Inductive script_exn :=
  | Builtin (e : exn)
  | KeyError
  | IndexError
  | ValueError
  | OverflowError.

Inductive attempt (A : Type) :=
  | Done (a : A)
  | Failed (e : script_exn).
Arguments Done {A} a.
Arguments Failed {A} e.

#[global] Instance attempt_ret : MRet attempt := fun A a => Done a.
#[global] Instance attempt_bind : MBind attempt := fun A B k m =>
  match m with
  | Done a => k a
  | Failed e => Failed e
  end.

Definition of_outcome {A} (o : outcome A) : attempt A :=
  match o with
  | Return a => Done a
  | Raise e => Failed (Builtin e)
  end.

Record response := mkResponse {
  ok : bool;
  body : file
}.

(** [res.json()]. *)
Definition json (res : response) : attempt pyobj := of_outcome (json_load (body res)).

(** [obj[key]] for a [str] key: only a [dict] can be asked. *)
Definition getitem (obj : pyobj) (key : string) : attempt pyobj :=
  match obj with
  | JDict d =>
      match kwarg key d with
      | Some v => Done v
      | None => Failed KeyError
      end
  | _ => Failed (Builtin TypeError)
  end.

(** [obj[0]]: the first element of a list, the first character of a string;
    a [dict] read from JSON has no key [0]. *)
Definition getitem0 (obj : pyobj) : attempt pyobj :=
  match obj with
  | JList (x :: _) => Done x
  | JList [] => Failed IndexError
  | JStr (String c _) => Done (JStr (String c EmptyString))
  | JStr EmptyString => Failed IndexError
  | JDict _ => Failed KeyError
  | _ => Failed (Builtin TypeError)
  end.

(** [len(obj)]. *)
Definition py_len (obj : pyobj) : attempt nat :=
  match obj with
  | JDict d => Done (length (last_bindings d))
  | JList l => Done (length l)
  | JStr s => Done (String.length s)
  | _ => Failed (Builtin TypeError)
  end.

Module wifi_wigle.
Section functions.
(** The answer of the service for a network, the result of the scan, and
    [float(value)], the language's. *)
Variable requests_get : string -> string -> response.
Variable get_wifi_data : list (string * string).
Variable py_float : pyobj -> attempt float.

Definition wiggle_lookup (ssid mac : string) : attempt pyobj :=
  let res := requests_get ssid mac in
  if negb (ok res) then Done (JDict [])
  else
    res_json ← json res;
    results ← getitem res_json "results";
    getitem0 results.

(** The loop of [get_gps_coords]: the two running sums and [n_points]. *)
Fixpoint accumulate (wifi_data : list (string * string)) (acc : float * float * nat)
  : attempt (float * float * nat) :=
  match wifi_data with
  | [] => Done acc
  | (ssid, mac) :: rest =>
      let '(latitude_deg, longitude_deg, n_points) := acc in
      res_json ← wiggle_lookup ssid mac;
      n ← py_len res_json;
      if Nat.eqb n 0 then accumulate rest acc
      else
        trilat ← getitem res_json "trilat" ≫= py_float;
        trilong ← getitem res_json "trilong" ≫= py_float;
        accumulate rest
          (PrimFloat.add latitude_deg trilat, PrimFloat.add longitude_deg trilong,
           S n_points)
  end.

Definition get_gps_coords : attempt (float * float * float) :=
  let wifi_data := get_wifi_data in
  sums ← accumulate wifi_data (0%float, 0%float, 0);
  let '(latitude_deg, longitude_deg, n_points) := sums in
  latitude_deg ← of_outcome (truediv latitude_deg n_points);
  longitude_deg ← of_outcome (truediv longitude_deg n_points);
  Done (latitude_deg, longitude_deg, 0%float).
End functions.
End wifi_wigle.

Module wifi_opencellid.
Section functions.
(** The answer of the service for the cell tower, and [float(value)]. *)
Variable requests_get : response.
Variable py_float : pyobj -> attempt float.

Definition get_gps_coords : attempt (option (float * float * float)) :=
  let res := requests_get in
  if negb (ok res) then Done None
  else
    res_json ← json res;
    lat ← getitem res_json "lat" ≫= py_float;
    lon ← getitem res_json "lon" ≫= py_float;
    Done (Some (lat, lon, 0%float)).

(** [latitude_deg, longitude_deg, altitude_m = get_gps_coords()] in the
    training loop: [None] cannot be unpacked. *)
Definition unpack_coords : attempt (float * float * float) :=
  coords ← get_gps_coords;
  match coords with
  | Some triple => Done triple
  | None => Failed (Builtin TypeError)
  end.
End functions.
End wifi_opencellid.

(** [float] on values that are floats already. *)
Definition float_of_float (v : pyobj) : attempt float :=
  match v with
  | JFloat f => Done f
  | _ => Failed (Builtin TypeError)
  end.

(** The position a response reports: that of the first of its results, when
    the response is fine and that result carries both coordinates as floats. *)
Definition reported_fix (res : response) : option (float * float) :=
  if ok res then
    match body res with
    | Document (JDict d) =>
        match kwarg "results" d with
        | Some (JList (JDict first :: _)) =>
            match kwarg "trilat" first, kwarg "trilong" first with
            | Some (JFloat lat), Some (JFloat lon) => Some (lat, lon)
            | _, _ => None
            end
        | _ => None
        end
    | _ => None
    end
  else None.

(** The fixes of a scan, in the order of the scan. *)
Definition reported_fixes (requests_get : string -> string -> response)
    (wifi_data : list (string * string)) : list (float * float) :=
  omap (fun wifi => reported_fix (requests_get (fst wifi) (snd wifi))) wifi_data.

(** Every network of the scan is either refused by the service or answered
    with a fix. *)
Definition answered_or_refused (requests_get : string -> string -> response)
    (wifi_data : list (string * string)) : Prop :=
  forall wifi, wifi ∈ wifi_data ->
    ok (requests_get (fst wifi) (snd wifi)) = true ->
    is_Some (reported_fix (requests_get (fst wifi) (snd wifi))).

(** A service that knows the network "home" only, at (2.0, 4.0), and one
    that answers with no result at all. *)
Definition home_only (ssid mac : string) : response :=
  if String.eqb ssid "home"
  then mkResponse true
         (Document (JDict [("results",
            JList [JDict [("trilat", JFloat 2); ("trilong", JFloat 4)]])]))
  else mkResponse false Malformed.

Definition no_results (ssid mac : string) : response :=
  mkResponse true (Document (JDict [("results", JList [])])).

(** ** Record objects that differ in undeclared keys only *)

(** Two sets of keyword arguments that give every field of the list the same
    value (or both none): they differ at most in keys that name no field. *)
Definition same_on (fields : list string) (kwargs kwargs' : list (string * pyobj)) : Prop :=
  forall field, field ∈ fields -> kwarg field kwargs = kwarg field kwargs'.

Definition same_record (fields : list string) (o o' : pyobj) : Prop :=
  o = o' \/
  exists kwargs kwargs', o = JDict kwargs /\ o' = JDict kwargs' /\ same_on fields kwargs kwargs'.

(** Two documents with the same keys in the same order, each key listing
    record objects that pairwise differ in undeclared keys only. *)
Definition same_documents (fields : list string) (d d' : list (string * pyobj)) : Prop :=
  Forall2 (fun it it' =>
             fst it = fst it' /\
             exists l l', snd it = JList l /\ snd it' = JList l' /\
                          Forall2 (same_record fields) l l') d d'.

(** Two items of a document under one key whose values convert alike. *)
Definition alike {R} `{BaseModel R} (it it' : string * pyobj) : Prop :=
  fst it = fst it' /\
  LandmarkStore.models_tuple (R:=R) (snd it) = LandmarkStore.models_tuple (snd it').

(** A geodetic record object whose latitude is written as a string of
    digits, and a disk whose one file stores it under "A". *)
Definition geodetic_with_digits : pyobj :=
  JDict [ ("identifier", JStr "A");
          ("latitude_deg", JStr "12");
          ("longitude_deg", JFloat 2);
          ("altitude_m", JFloat 3);
          ("latitude_uncertainty_deg", JFloat 1e-6);
          ("longitude_uncertainty_deg", JFloat 1e-6);
          ("altitude_uncertainty_m", JFloat 10) ].

Definition disk_digits : gmap string file :=
  {[ "landmarks.json" := Document (JDict [ ("A", JList [geodetic_with_digits]) ]) ]}.

(** * Properties *)

Ltac py_unfold :=
  unfold mbind, mret, Py_bind, Py_ret, bind, ret, raise, gets, modify, lift,
    set_storage, write_file, read_file in *.

(** ** The data models *)

Lemma geodetic_validate_dict `{Pydantic} (r : GeodeticLandmark.t) :
  GeodeticLandmark.validate (GeodeticLandmark.dict r) = Some r.
Proof.
  destruct r. unfold GeodeticLandmark.validate, required. cbn.
  rewrite str_validator_str. cbn.
  rewrite !float_validator_float. reflexivity.
Qed.

Lemma cartesian_validate_dict `{Pydantic} (r : CartesianLandmark.t) :
  CartesianLandmark.validate (CartesianLandmark.dict r) = Some r.
Proof.
  destruct r. unfold CartesianLandmark.validate, required. cbn.
  rewrite str_validator_str. cbn.
  rewrite !float_validator_float. reflexivity.
Qed.

(** ** The store *)

Section store_facts.
Context {R : Type} `{BaseModel R}.
Implicit Types (w : World R) (datum : R) (ident : string).

Lemma get_run ident w :
  LandmarkStore.get ident w = (Return (default [] (_storage w !! ident)), w).
Proof. reflexivity. Qed.

Lemma put_run datum w :
  LandmarkStore.put datum w =
    (Return (bool_decide (identifier datum ∈ dom (_storage w))),
     mkWorld (<[identifier datum :=
                  default [] (_storage w !! identifier datum) ++ [datum]]> (_storage w))
             (files w)).
Proof.
  unfold LandmarkStore.put. py_unfold. cbn.
  destruct (_storage w !! identifier datum) as [existing|] eqn:E; cbn.
  - rewrite bool_decide_eq_true_2; [reflexivity|].
    apply elem_of_dom. eauto.
  - rewrite bool_decide_eq_false_2; [reflexivity|].
    apply not_elem_of_dom. exact E.
Qed.

Lemma len_run w :
  LandmarkStore.__len__ w = (Return (size (_storage w)), w).
Proof. reflexivity. Qed.

Lemma save_run path w :
  LandmarkStore.save path w =
    (Return tt,
     mkWorld (_storage w)
       (<[path := Document (LandmarkStore.serializable_data (_storage w))]> (files w))).
Proof. reflexivity. Qed.

Lemma put_dom datum w :
  dom (_storage (snd (LandmarkStore.put datum w))) =
    {[identifier datum]} ∪ dom (_storage w).
Proof. rewrite put_run. cbn. apply dom_insert_L. Qed.

Lemma put_size_existing datum w :
  identifier datum ∈ dom (_storage w) ->
  size (_storage (snd (LandmarkStore.put datum w))) = size (_storage w).
Proof.
  intros Hin. rewrite <- !size_dom, put_dom.
  f_equal. set_solver.
Qed.

Lemma put_size_new datum w :
  identifier datum ∉ dom (_storage w) ->
  size (_storage (snd (LandmarkStore.put datum w))) = S (size (_storage w)).
Proof.
  intros Hnin. rewrite <- !size_dom, put_dom.
  rewrite size_union by set_solver. rewrite size_singleton. reflexivity.
Qed.

Lemma put_all_run data : forall w,
  exists w', put_all data w = (Return tt, w') /\
    files w' = files w /\
    dom (_storage w') = list_to_set (identifier <$> data) ∪ dom (_storage w).
Proof.
  induction data as [|datum data IH]; intros w.
  - exists w. split; [reflexivity|]. split; [reflexivity|]. set_solver.
  - unfold put_all. cbn [for_each]. py_unfold. rewrite put_run. cbn.
    destruct (IH (mkWorld (<[identifier datum :=
                  default [] (_storage w !! identifier datum) ++ [datum]]> (_storage w))
             (files w))) as (w' & Hrun & Hfiles & Hdom).
    exists w'. unfold put_all in Hrun. py_unfold. rewrite Hrun.
    split; [reflexivity|]. split; [exact Hfiles|].
    rewrite Hdom. cbn. rewrite dom_insert_L. set_solver.
Qed.
End store_facts.

(** ** The averaging engines *)

Lemma geodetic_accumulate_fold (recs : list GeodeticLandmark.t) : forall a b c,
  foldl GlobalLocalisation.accumulate (a, b, c) recs =
    (foldl PrimFloat.add a (GeodeticLandmark.latitude_deg <$> recs),
     foldl PrimFloat.add b (GeodeticLandmark.longitude_deg <$> recs),
     foldl PrimFloat.add c (GeodeticLandmark.altitude_m <$> recs)).
Proof.
  induction recs as [|r recs IH]; intros a b c; [reflexivity|].
  cbn. apply IH.
Qed.

Lemma cartesian_accumulate_fold (recs : list CartesianLandmark.t) : forall a b c,
  foldl CartesianLocalisation.accumulate (a, b, c) recs =
    (foldl PrimFloat.add a (CartesianLandmark.x_m <$> recs),
     foldl PrimFloat.add b (CartesianLandmark.y_m <$> recs),
     foldl PrimFloat.add c (CartesianLandmark.z_m <$> recs)).
Proof.
  induction recs as [|r recs IH]; intros a b c; [reflexivity|].
  cbn. apply IH.
Qed.

Lemma geodetic_localise_run (ident : string) (w : World GeodeticLandmark.t) :
  GlobalLocalisation.localise ident w =
    (Return (match default [] (_storage w !! ident) with
             | [] => None
             | recs => Some (geodetic_estimate ident recs)
             end), w).
Proof.
  unfold GlobalLocalisation.localise, GlobalLocalisation.get_data.
  py_unfold. rewrite get_run.
  destruct (default [] (_storage w !! ident)) as [|r recs] eqn:E; [reflexivity|].
  rewrite geodetic_accumulate_fold.
  unfold geodetic_estimate, arithmetic_mean, float_sum.
  rewrite !length_fmap. reflexivity.
Qed.

Lemma cartesian_localise_run (ident : string) (w : World CartesianLandmark.t) :
  CartesianLocalisation.localise ident w =
    (Return (match default [] (_storage w !! ident) with
             | [] => None
             | recs => Some (cartesian_estimate ident recs)
             end), w).
Proof.
  unfold CartesianLocalisation.localise, CartesianLocalisation.get_data.
  py_unfold. rewrite get_run.
  destruct (default [] (_storage w !! ident)) as [|r recs] eqn:E; [reflexivity|].
  rewrite cartesian_accumulate_fold.
  unfold cartesian_estimate, arithmetic_mean, float_sum.
  rewrite !length_fmap. reflexivity.
Qed.

(** ** Claims about [localise] *)

(** C1. For an identifier with at least one stored record, [localise]
    returns a record whose coordinates are each the arithmetic mean (sum
    divided by count, unweighted, stored uncertainties ignored) of that field
    over all the stored records, and whose uncertainties are the fixed
    defaults, for the geodetic and for the Cartesian engine; after adding
    the geodetic records (0,0,0) and (2,4,6) under "A", [localise "A"] is
    (1,2,3) with uncertainties (1e-6, 1e-6, 10.0). *)
Theorem localise_is_unweighted_mean :
  (forall ident (w : World GeodeticLandmark.t) recs,
      LandmarkStore.get ident w = (Return recs, w) -> recs <> [] ->
      GlobalLocalisation.localise ident w =
        (Return (Some (geodetic_estimate ident recs)), w)) /\
  (forall ident (w : World CartesianLandmark.t) recs,
      LandmarkStore.get ident w = (Return recs, w) -> recs <> [] ->
      CartesianLocalisation.localise ident w =
        (Return (Some (cartesian_estimate ident recs)), w)) /\
  (forall (P : Pydantic) disk u1 u2 u3 v1 v2 v3,
      fst ((_ ← GlobalLocalisation.add_data "A" 0 0 0 u1 u2 u3;
            _ ← GlobalLocalisation.add_data "A" 2 4 6 v1 v2 v3;
            GlobalLocalisation.localise "A") (GlobalLocalisation.__init__ disk)) =
        Return (Some (GeodeticLandmark.mk "A" 1 2 3 1e-6 1e-6 10))).
Proof.
  split; [|split].
  - intros ident w recs Hget Hne. rewrite get_run in Hget.
    injection Hget as Hrecs. rewrite geodetic_localise_run, Hrecs.
    destruct recs; [contradiction|reflexivity].
  - intros ident w recs Hget Hne. rewrite get_run in Hget.
    injection Hget as Hrecs. rewrite cartesian_localise_run, Hrecs.
    destruct recs; [contradiction|reflexivity].
  - intros P disk u1 u2 u3 v1 v2 v3.
    unfold GlobalLocalisation.add_data. py_unfold.
    rewrite !put_run. cbn [fst snd _storage files].
    rewrite geodetic_localise_run. cbn [fst].
    vm_compute. reflexivity.
Qed.

(** On the worked stores: the mean of (0,0,0) and (2,4,6), and of (1,2,3) and
    (3,6,9), whatever uncertainties were stored. *)
Lemma localise_is_unweighted_mean_witness :
  GlobalLocalisation.localise "A" world_a =
    (Return (Some (GeodeticLandmark.mk "A" 1 2 3 1e-6 1e-6 10)), world_a) /\
  CartesianLocalisation.localise "P" world_p =
    (Return (Some (CartesianLandmark.mk "P" 2 4 6 0.1)), world_p).
Proof.
  destruct localise_is_unweighted_mean as (Hg & Hc & _). split.
  - apply (Hg "A" world_a [record_a1; record_a2]); [reflexivity|discriminate].
  - apply (Hc "P" world_p [point_p1; point_p2]); [reflexivity|discriminate].
Defined.

(** C9. Whenever [localise] returns a record, the identifier of the returned
    estimate is the identifier that was asked for, in the geodetic and in the
    Cartesian engine. *)
Theorem localise_returns_queried_identifier :
  (forall ident (w w' : World GeodeticLandmark.t) r,
      GlobalLocalisation.localise ident w = (Return (Some r), w') ->
      GeodeticLandmark.identifier r = ident) /\
  (forall ident (w w' : World CartesianLandmark.t) r,
      CartesianLocalisation.localise ident w = (Return (Some r), w') ->
      CartesianLandmark.identifier r = ident).
Proof.
  split; intros ident w w' r Hrun.
  - rewrite geodetic_localise_run in Hrun.
    destruct (default [] (_storage w !! ident)); [discriminate|].
    injection Hrun as <- _. reflexivity.
  - rewrite cartesian_localise_run in Hrun.
    destruct (default [] (_storage w !! ident)); [discriminate|].
    injection Hrun as <- _. reflexivity.
Qed.

(** On the worked stores, the estimates carry the identifiers asked for. *)
Lemma localise_returns_queried_identifier_witness :
  GeodeticLandmark.identifier (geodetic_estimate "A" [record_a1; record_a2]) = "A" /\
  CartesianLandmark.identifier (cartesian_estimate "P" [point_p1; point_p2]) = "P".
Proof.
  destruct localise_returns_queried_identifier as (Hg & Hc). split.
  - apply (Hg "A" world_a world_a). reflexivity.
  - apply (Hc "P" world_p world_p). reflexivity.
Defined.

(** C7. Not-found is not an error: [get] always returns, and for an
    identifier with no stored records (a key that is absent or holds the
    empty sequence; any identifier on a fresh store) [get] returns the empty
    sequence and [localise] returns [None], without raising. *)
Theorem not_found_is_not_an_error :
  (forall R ident (w : World R),
      exists recs, LandmarkStore.get ident w = (Return recs, w)) /\
  (forall R ident (w : World R),
      _storage w !! ident = None \/ _storage w !! ident = Some [] ->
      LandmarkStore.get ident w = (Return [], w)) /\
  (forall R ident disk,
      LandmarkStore.get ident (LandmarkStore.__init__ (R:=R) disk) =
        (Return [], LandmarkStore.__init__ disk)) /\
  (forall ident (w : World GeodeticLandmark.t),
      _storage w !! ident = None \/ _storage w !! ident = Some [] ->
      GlobalLocalisation.get_data ident w = (Return [], w) /\
      GlobalLocalisation.localise ident w = (Return None, w)) /\
  (forall ident (w : World CartesianLandmark.t),
      _storage w !! ident = None \/ _storage w !! ident = Some [] ->
      CartesianLocalisation.get_data ident w = (Return [], w) /\
      CartesianLocalisation.localise ident w = (Return None, w)) /\
  (forall ident disk,
      fst (GlobalLocalisation.localise ident (GlobalLocalisation.__init__ disk)) =
        Return None /\
      fst (CartesianLocalisation.localise ident (CartesianLocalisation.__init__ disk)) =
        Return None).
Proof.
  split_and!.
  - intros R ident w. eexists. apply get_run.
  - intros R ident w Hnone. rewrite get_run.
    destruct Hnone as [-> | ->]; reflexivity.
  - reflexivity.
  - intros ident w Hnone. unfold GlobalLocalisation.get_data.
    rewrite get_run, geodetic_localise_run.
    destruct Hnone as [-> | ->]; split; reflexivity.
  - intros ident w Hnone. unfold CartesianLocalisation.get_data.
    rewrite get_run, cartesian_localise_run.
    destruct Hnone as [-> | ->]; split; reflexivity.
  - intros ident disk.
    rewrite geodetic_localise_run, cartesian_localise_run.
    split; reflexivity.
Qed.

(** On the worked stores, identifiers that were never put. *)
Lemma not_found_is_not_an_error_witness :
  LandmarkStore.get "B" world_a = (Return [], world_a) /\
  GlobalLocalisation.localise "B" world_a = (Return None, world_a) /\
  CartesianLocalisation.localise "Q" world_p = (Return None, world_p).
Proof.
  destruct not_found_is_not_an_error as (_ & Hget & _ & Hg & Hc & _).
  split; [|split].
  - apply (Hget _ "B" world_a). left. reflexivity.
  - apply (Hg "B" world_a). left. reflexivity.
  - apply (Hc "Q" world_p). left. reflexivity.
Defined.

(** ** Claims about the store *)

Lemma size_list_to_set_remove_dups (l : list string) :
  size (list_to_set l : gset string) = length (remove_dups l).
Proof.
  rewrite <- (size_list_to_set (C:=gset string) (remove_dups l))
    by apply NoDup_remove_dups.
  f_equal. apply set_eq. intros x.
  rewrite !elem_of_list_to_set, elem_of_remove_dups. reflexivity.
Qed.

(** C4. [put] appends the record to the sequence keyed by its identifier
    (a one-element sequence when the identifier was absent, the existing
    sequence extended at its end otherwise) and returns true exactly when
    the identifier was in the store before the call: false for a new
    identifier, true for every later [put] under it. *)
Theorem put_appends_and_reports_existing {R} `{BaseModel R}
    (datum : R) (w : World R) :
  exists found before w',
    LandmarkStore.put datum w = (Return found, w') /\
    LandmarkStore.get (identifier datum) w = (Return before, w) /\
    LandmarkStore.get (identifier datum) w' = (Return (before ++ [datum]), w') /\
    (found = true <-> identifier datum ∈ dom (_storage w)) /\
    (identifier datum ∉ dom (_storage w) ->
       found = false /\ _storage w' !! identifier datum = Some [datum]) /\
    (forall datum2, identifier datum2 = identifier datum ->
       fst (LandmarkStore.put datum2 w') = Return true).
Proof.
  eexists _, _, _. split; [apply put_run|]. split; [apply get_run|].
  split_and!.
  - rewrite get_run. cbn. rewrite lookup_insert_eq. reflexivity.
  - apply bool_decide_eq_true.
  - intros Hnew. split; [apply bool_decide_eq_false_2, Hnew|].
    cbn. rewrite lookup_insert_eq.
    apply not_elem_of_dom in Hnew. rewrite Hnew. reflexivity.
  - intros datum2 Hsame. rewrite put_run. cbn. f_equal.
    apply bool_decide_eq_true_2. rewrite Hsame, dom_insert_L. set_solver.
Qed.

(** A new identifier reports false; two puts under "A" are read back in the
    order they were made. *)
Lemma put_appends_and_reports_existing_witness :
  fst (LandmarkStore.put (H:=@GeodeticLandmark_model exact_validators)
         record_b world_a) = Return false /\
  fst ((_ ← LandmarkStore.put (H:=@GeodeticLandmark_model exact_validators) record_a1;
        _ ← LandmarkStore.put (H:=@GeodeticLandmark_model exact_validators) record_a2;
        LandmarkStore.get "A") (LandmarkStore.__init__ ∅)) =
    Return [record_a1; record_a2].
Proof.
  split.
  - destruct (put_appends_and_reports_existing
                (H:=@GeodeticLandmark_model exact_validators) record_b world_a)
      as (found & before & w' & Hput & _ & _ & _ & Hnew & _).
    rewrite Hput. cbn. f_equal. apply Hnew.
    apply not_elem_of_dom. reflexivity.
  - reflexivity.
Defined.

(** C8. The length of a store is the number of distinct identifiers stored,
    however many records each holds: it is the size of the key set, [0] on a
    fresh store, the number of distinct identifiers among the records put
    so far, and unchanged by a [put] under an existing identifier; the
    engines pass it through. *)
Theorem len_counts_distinct_identifiers {R} `{BaseModel R} :
  (forall w : World R,
      LandmarkStore.__len__ w = (Return (size (dom (_storage w))), w)) /\
  (forall disk,
      fst (LandmarkStore.__len__ (LandmarkStore.__init__ (R:=R) disk)) = Return 0) /\
  (forall (data : list R) disk,
      fst ((_ ← put_all data; LandmarkStore.__len__) (LandmarkStore.__init__ disk)) =
        Return (length (remove_dups (identifier <$> data)))) /\
  (forall datum (w : World R),
      identifier datum ∈ dom (_storage w) ->
      fst ((_ ← LandmarkStore.put datum; LandmarkStore.__len__) w) =
        fst (LandmarkStore.__len__ w)) /\
  GlobalLocalisation.__len__ = LandmarkStore.__len__ /\
  CartesianLocalisation.__len__ = LandmarkStore.__len__.
Proof.
  split_and!; try reflexivity.
  - intros w. rewrite len_run, size_dom. reflexivity.
  - intros data disk.
    destruct (put_all_run data (LandmarkStore.__init__ disk))
      as (w' & Hrun & _ & Hdom).
    py_unfold. rewrite Hrun, len_run. cbn. f_equal.
    rewrite <- size_dom, Hdom. cbn. rewrite dom_empty_L, (right_id_L ∅ (∪)).
    apply size_list_to_set_remove_dups.
  - intros datum w Hin. py_unfold.
    pose proof (put_size_existing datum w Hin) as Hsize.
    rewrite put_run in *. cbn in *. f_equal. exact Hsize.
Qed.

(** A third record under "A" leaves the length of the worked store at one. *)
Lemma len_counts_distinct_identifiers_witness :
  fst ((_ ← LandmarkStore.put (H:=@GeodeticLandmark_model exact_validators) record_a2;
        LandmarkStore.__len__) world_a) = Return 1.
Proof.
  destruct (len_counts_distinct_identifiers
              (H:=@GeodeticLandmark_model exact_validators))
    as (_ & _ & _ & Hput & _).
  rewrite (Hput record_a2 world_a); [reflexivity|].
  apply elem_of_dom. eexists. reflexivity.
Defined.

(** C10. Frame: [put] changes only the sequence keyed by the record's
    identifier (every other identifier keeps its sequence, same records in
    the same order, and the files are untouched), and the queries [get],
    [localise] and [save] leave the whole mapping of the store unchanged. *)
Theorem put_frame_and_queries_preserve_store :
  (forall R (M : BaseModel R) (datum : R) (w : World R) other,
      other <> identifier datum ->
      _storage (snd (LandmarkStore.put datum w)) !! other = _storage w !! other /\
      fst (LandmarkStore.get other (snd (LandmarkStore.put datum w))) =
        fst (LandmarkStore.get other w) /\
      files (snd (LandmarkStore.put datum w)) = files w) /\
  (forall R ident (w : World R), snd (LandmarkStore.get ident w) = w) /\
  (forall R (M : BaseModel R) path (w : World R),
      _storage (snd (LandmarkStore.save path w)) = _storage w) /\
  (forall ident (w : World GeodeticLandmark.t),
      snd (GlobalLocalisation.get_data ident w) = w /\
      snd (GlobalLocalisation.localise ident w) = w) /\
  (forall ident (w : World CartesianLandmark.t),
      snd (CartesianLocalisation.get_data ident w) = w /\
      snd (CartesianLocalisation.localise ident w) = w) /\
  (forall (P : Pydantic) path (w : World GeodeticLandmark.t),
      _storage (snd (GlobalLocalisation.save path w)) = _storage w) /\
  (forall (P : Pydantic) path (w : World CartesianLandmark.t),
      _storage (snd (CartesianLocalisation.save path w)) = _storage w).
Proof.
  split_and!; try reflexivity.
  - intros R M datum w other Hne. rewrite !get_run, put_run. cbn.
    rewrite lookup_insert_ne by congruence. auto.
  - intros ident w. rewrite geodetic_localise_run. split; reflexivity.
  - intros ident w. rewrite cartesian_localise_run. split; reflexivity.
Qed.

(** Putting a record under "B" leaves the records under "A" as they were. *)
Lemma put_frame_and_queries_preserve_store_witness :
  _storage (snd (LandmarkStore.put (H:=@GeodeticLandmark_model exact_validators)
                   record_b world_a)) !! "A" = Some [record_a1; record_a2].
Proof.
  destruct put_frame_and_queries_preserve_store as (Hput & _).
  destruct (Hput _ (@GeodeticLandmark_model exact_validators) record_b world_a "A")
    as (Hsame & _); [discriminate|].
  rewrite Hsame. reflexivity.
Defined.

(** ** Saving and loading *)

Section load_facts.
Context {R : Type} `{BaseModel R}.
Implicit Types (w : World R) (st acc : gmap string (list R)).

Lemma load_run path w :
  LandmarkStore.load path w =
    match files w !! path with
    | None => (Raise FileNotFoundError, w)
    | Some Unreadable => (Raise PermissionError, w)
    | Some Malformed => (Raise JSONDecodeError, w)
    | Some (Document raw_data) =>
        match items raw_data with
        | Raise e => (Raise e, w)
        | Return its =>
            match LandmarkStore.rebuild its ∅ with
            | Raise e => (Raise e, w)
            | Return st => (Return (size st), mkWorld st (files w))
            end
        end
    end.
Proof.
  unfold LandmarkStore.load. py_unfold.
  destruct (files w !! path) as [[|raw_data|]|]; cbn; try reflexivity.
  all: destruct (items raw_data) as [its|e]; cbn; try reflexivity.
  all: destruct (LandmarkStore.rebuild its ∅); reflexivity.
Qed.

Lemma dict_set_keys k v d k' :
  k' ∈ (dict_set k v d).*1 <-> k' = k \/ k' ∈ d.*1.
Proof.
  induction d as [|[k0 v0] d IH]; cbn.
  - set_solver.
  - destruct (String.eqb k k0) eqn:E; cbn.
    + apply String.eqb_eq in E as ->. set_solver.
    + rewrite !elem_of_cons, IH. tauto.
Qed.

Lemma dict_set_NoDup k v d : NoDup d.*1 -> NoDup (dict_set k v d).*1.
Proof.
  induction d as [|[k0 v0] d IH]; cbn; intros Hnd.
  - repeat constructor. set_solver.
  - apply NoDup_cons in Hnd as [Hk0 Hnd].
    destruct (String.eqb k k0) eqn:E; cbn.
    + constructor; assumption.
    + apply String.eqb_neq in E. constructor; [|auto].
      rewrite dict_set_keys. intros [->|Hin]; [congruence|contradiction].
Qed.

Lemma dict_set_new k v d : k ∉ d.*1 -> dict_set k v d = d ++ [(k, v)].
Proof.
  induction d as [|[k0 v0] d IH]; cbn; intros Hk; [reflexivity|].
  apply not_elem_of_cons in Hk as [Hne Hk].
  apply String.eqb_neq in Hne. rewrite Hne, IH by exact Hk. reflexivity.
Qed.

Lemma dict_fold_keys d : forall sofar k,
  k ∈ (foldl (fun sofar kv => dict_set (fst kv) (snd kv) sofar) sofar d).*1 <->
  k ∈ sofar.*1 \/ k ∈ d.*1.
Proof.
  induction d as [|[k0 v0] d IH]; intros sofar k; cbn.
  - set_solver.
  - rewrite IH, dict_set_keys, elem_of_cons. tauto.
Qed.

Lemma dict_fold_NoDup d : forall sofar,
  NoDup sofar.*1 ->
  NoDup (foldl (fun sofar kv => dict_set (fst kv) (snd kv) sofar) sofar d).*1.
Proof.
  induction d as [|[k0 v0] d IH]; intros sofar Hnd; cbn; [exact Hnd|].
  apply IH, dict_set_NoDup, Hnd.
Qed.

Lemma dict_fold_id d : forall sofar,
  NoDup (sofar.*1 ++ d.*1) ->
  foldl (fun sofar kv => dict_set (fst kv) (snd kv) sofar) sofar d = sofar ++ d.
Proof.
  induction d as [|[k0 v0] d IH]; intros sofar Hnd; cbn.
  - rewrite app_nil_r. reflexivity.
  - cbn in Hnd. rewrite dict_set_new.
    + rewrite IH; [rewrite <- app_assoc; reflexivity|].
      rewrite fmap_app. cbn. rewrite <- app_assoc. exact Hnd.
    + apply NoDup_app in Hnd as (_ & Hdisj & _).
      intros Hin. apply (Hdisj _ Hin). set_solver.
Qed.

Lemma last_bindings_keys_subset d k :
  k ∈ (last_bindings d).*1 -> k ∈ d.*1.
Proof.
  unfold last_bindings. rewrite dict_fold_keys. set_solver.
Qed.

Lemma last_bindings_NoDup d : NoDup (last_bindings d).*1.
Proof. apply dict_fold_NoDup. constructor. Qed.

Lemma last_bindings_id d : NoDup d.*1 -> last_bindings d = d.
Proof. intros Hnd. apply (dict_fold_id d []). exact Hnd. Qed.

Lemma last_bindings_keys d k :
  k ∈ (last_bindings d).*1 <-> k ∈ d.*1.
Proof.
  unfold last_bindings. rewrite dict_fold_keys. set_solver.
Qed.
Lemma map_outcome_all {A B} (f : A -> outcome B) (g : B -> A) (ys : list B) :
  (forall y, f (g y) = Return y) -> map_outcome f (map g ys) = Return ys.
Proof.
  intros Hfg. induction ys as [|y ys IH]; cbn; [reflexivity|].
  rewrite Hfg, IH. reflexivity.
Qed.

Lemma map_outcome_raise {A B} (f : A -> outcome B) (xs : list A) x e :
  x ∈ xs -> f x = Raise e -> exists e', map_outcome f xs = Raise e'.
Proof.
  intros Hin Hx. induction xs as [|x' xs IH]; [set_solver|].
  cbn. destruct (f x') as [y|e1] eqn:E; [|eauto].
  apply elem_of_cons in Hin as [->|Hin]; [congruence|].
  destruct (IH Hin) as [e' ->]. eauto.
Qed.

Lemma map_outcome_return {A B} (f : A -> outcome B) (xs : list A) ys :
  map_outcome f xs = Return ys -> Forall2 (fun x y => f x = Return y) xs ys.
Proof.
  revert ys. induction xs as [|x xs IH]; cbn; intros ys Hrun.
  - injection Hrun as <-. constructor.
  - destruct (f x) as [y|] eqn:E; [|discriminate].
    destruct (map_outcome f xs) as [ys'|]; [|discriminate].
    injection Hrun as <-. constructor; auto.
Qed.

Lemma rebuild_dom its : forall acc st,
  LandmarkStore.rebuild its acc = Return st ->
  dom st = list_to_set (its.*1) ∪ dom acc.
Proof.
  induction its as [|[k ml] its IH]; cbn; intros acc st Hrun.
  - injection Hrun as <-. set_solver.
  - destruct (LandmarkStore.models_tuple ml) as [t|]; [|discriminate].
    apply IH in Hrun. rewrite Hrun, dom_insert_L. set_solver.
Qed.

Lemma rebuild_lookup its : forall acc st k rs,
  NoDup its.*1 ->
  LandmarkStore.rebuild its acc = Return st ->
  st !! k = Some rs <->
    (exists ml, (k, ml) ∈ its /\ LandmarkStore.models_tuple ml = Return rs) \/
    ((k ∉ its.*1) /\ acc !! k = Some rs).
Proof.
  induction its as [|[k' ml'] its IH]; cbn; intros acc st k rs Hnd Hrun.
  - injection Hrun as <-. split; [intros; right; split; [set_solver|done]|].
    intros [(ml & Hin & _)|[_ Hacc]]; [set_solver|done].
  - apply NoDup_cons in Hnd as [Hk' Hnd].
    destruct (LandmarkStore.models_tuple ml') as [t|] eqn:Et; [|discriminate].
    rewrite (IH _ _ k rs Hnd Hrun). split.
    + intros [(ml & Hin & Hml)|[Hk Hacc]].
      * left. exists ml. split; [set_solver|done].
      * destruct (decide (k = k')) as [->|Hne].
        -- rewrite lookup_insert_eq in Hacc. injection Hacc as ->.
           left. exists ml'. split; [set_solver|done].
        -- rewrite lookup_insert_ne in Hacc by congruence.
           right. split; [set_solver|done].
    + intros [(ml & Hin & Hml)|[Hk Hacc]].
      * apply elem_of_cons in Hin as [Heq|Hin].
        -- injection Heq as -> ->. right. split; [exact Hk'|].
           rewrite lookup_insert_eq. congruence.
        -- left. eauto.
      * right. apply not_elem_of_cons in Hk as [Hne Hk]. split; [exact Hk|].
        rewrite lookup_insert_ne by congruence. exact Hacc.
Qed.

Lemma rebuild_raise its : forall acc k ml e,
  (k, ml) ∈ its -> LandmarkStore.models_tuple ml = Raise e ->
  exists e', LandmarkStore.rebuild its acc = Raise e'.
Proof.
  induction its as [|[k' ml'] its IH]; intros acc k ml e Hin Hml; [set_solver|].
  cbn. destruct (LandmarkStore.models_tuple ml') as [t|e1] eqn:E; [|eauto].
  apply elem_of_cons in Hin as [Heq|Hin]; [congruence|].
  eapply IH; eauto.
Qed.

Lemma models_tuple_raise (l : list pyobj) o e :
  o ∈ l -> LandmarkStore.construct o = Raise e ->
  exists e', LandmarkStore.models_tuple (JList l) = Raise e'.
Proof. apply map_outcome_raise. Qed.

Lemma models_tuple_serialized (rs : list R) :
  dict_validates R ->
  LandmarkStore.models_tuple (JList (map (fun model => JDict (dict model)) rs)) =
    Return rs.
Proof.
  intros Hlaw. unfold LandmarkStore.models_tuple. cbn.
  apply map_outcome_all. intros r. cbn. rewrite Hlaw. reflexivity.
Qed.

Lemma rebuild_serialized (l : list (string * list R)) : forall acc,
  dict_validates R -> NoDup l.*1 ->
  LandmarkStore.rebuild
    (map (fun kv => (fst kv, JList (map (fun model => JDict (dict model)) (snd kv)))) l)
    acc = Return (list_to_map l ∪ acc).
Proof.
  intros acc Hlaw. revert acc.
  induction l as [|[k rs] l IH]; intros acc Hnd.
  - cbn. rewrite (left_id_L ∅ (∪)). reflexivity.
  - rewrite fmap_cons in Hnd. apply NoDup_cons in Hnd as [Hk Hnd].
    cbn [map LandmarkStore.rebuild fst snd] in *.
    rewrite models_tuple_serialized by exact Hlaw.
    rewrite IH by exact Hnd. f_equal. cbn.
    rewrite <- insert_union_l. symmetry.
    apply insert_union_r, not_elem_of_list_to_map_1, Hk.
Qed.

Lemma serialized_items st :
  items (LandmarkStore.serializable_data st) =
    Return (map (fun kv => (fst kv, JList (map (fun model => JDict (dict model)) (snd kv))))
              (map_to_list st)).
Proof.
  unfold LandmarkStore.serializable_data, items.
  rewrite last_bindings_id; [reflexivity|].
  rewrite <- list_fmap_compose.
  rewrite (list_fmap_ext _ fst (map_to_list st)) by reflexivity.
  apply NoDup_fst_map_to_list.
Qed.

Lemma save_load_roundtrip path w st0 :
  dict_validates R ->
  LandmarkStore.load path (mkWorld st0 (files (snd (LandmarkStore.save path w)))) =
    (Return (size (_storage w)),
     mkWorld (_storage w) (files (snd (LandmarkStore.save path w)))).
Proof.
  intros Hlaw. rewrite load_run, save_run. cbn [snd files].
  rewrite lookup_insert_eq, serialized_items.
  rewrite rebuild_serialized by (exact Hlaw || apply NoDup_fst_map_to_list).
  rewrite list_to_map_to_list, (right_id_L ∅ (∪)). reflexivity.
Qed.
End load_facts.

(** Validation of the two variants. *)

Lemma geodetic_validate_missing `{Pydantic} kwargs field :
  field ∈ geodetic_fields -> kwarg field kwargs = None ->
  GeodeticLandmark.validate kwargs = None.
Proof.
  intros Hin Hnone. unfold GeodeticLandmark.validate, required.
  repeat (apply elem_of_cons in Hin as [->|Hin]);
    [..|apply elem_of_nil in Hin; contradiction];
    rewrite Hnone; cbn;
    repeat (match goal with
            | |- context [kwarg ?f kwargs ≫= ?v] =>
                destruct (kwarg f kwargs ≫= v); cbn
            end);
    reflexivity.
Qed.

Lemma cartesian_validate_missing `{Pydantic} kwargs field :
  field ∈ cartesian_fields -> kwarg field kwargs = None ->
  CartesianLandmark.validate kwargs = None.
Proof.
  intros Hin Hnone. unfold CartesianLandmark.validate, required.
  repeat (apply elem_of_cons in Hin as [->|Hin]);
    [..|apply elem_of_nil in Hin; contradiction];
    rewrite Hnone; cbn;
    repeat (match goal with
            | |- context [kwarg ?f kwargs ≫= ?v] =>
                destruct (kwarg f kwargs ≫= v); cbn
            end);
    reflexivity.
Qed.

Lemma cartesian_dict_rejected_by_geodetic `{Pydantic} (r : CartesianLandmark.t) :
  LandmarkStore.construct (R:=GeodeticLandmark.t) (JDict (dict r)) =
    Raise ValidationError.
Proof.
  unfold LandmarkStore.construct, validate, GeodeticLandmark_model.
  rewrite (geodetic_validate_missing _ "latitude_deg"); [reflexivity| |].
  - unfold geodetic_fields. set_solver.
  - destruct r. reflexivity.
Qed.

Lemma geodetic_dict_rejected_by_cartesian `{Pydantic} (r : GeodeticLandmark.t) :
  LandmarkStore.construct (R:=CartesianLandmark.t) (JDict (dict r)) =
    Raise ValidationError.
Proof.
  unfold LandmarkStore.construct, validate, CartesianLandmark_model.
  rewrite (cartesian_validate_missing _ "x_m"); [reflexivity| |].
  - unfold cartesian_fields. set_solver.
  - destruct r. reflexivity.
Qed.

(** C5. Round trip: [save] to a path, then [load] from it into a fresh store
    of the same variant, gives back an equal mapping: the same identifiers,
    each with the same records (the same number of them, field for field the
    same binary64 values, in the same order); [load] returns their count.
    The engines' [save] and [load] pass through to the store's. *)
Theorem save_then_load_reproduces_mapping (P : Pydantic) :
  (forall path (w : World GeodeticLandmark.t),
      exists w',
        LandmarkStore.load path
          (LandmarkStore.__init__ (files (snd (LandmarkStore.save path w)))) =
          (Return (size (dom (_storage w))), w') /\
        _storage w' = _storage w /\
        dom (_storage w') = dom (_storage w) /\
        forall ident,
          fst (LandmarkStore.get ident w') = fst (LandmarkStore.get ident w)) /\
  (forall path (w : World CartesianLandmark.t),
      exists w',
        LandmarkStore.load path
          (LandmarkStore.__init__ (files (snd (LandmarkStore.save path w)))) =
          (Return (size (dom (_storage w))), w') /\
        _storage w' = _storage w /\
        dom (_storage w') = dom (_storage w) /\
        forall ident,
          fst (LandmarkStore.get ident w') = fst (LandmarkStore.get ident w)) /\
  (forall path (w : World GeodeticLandmark.t),
      let after := (_ ← GlobalLocalisation.save path; GlobalLocalisation.load path) w in
      fst after = Return tt /\ _storage (snd after) = _storage w) /\
  (forall path (w : World CartesianLandmark.t),
      let after := (_ ← CartesianLocalisation.save path; CartesianLocalisation.load path) w in
      fst after = Return tt /\ _storage (snd after) = _storage w).
Proof.
  assert (Hg : dict_validates GeodeticLandmark.t)
    by (intros r; apply geodetic_validate_dict).
  assert (Hc : dict_validates CartesianLandmark.t)
    by (intros r; apply cartesian_validate_dict).
  split_and!.
  - intros path w.
    exists (mkWorld (_storage w) (files (snd (LandmarkStore.save path w)))).
    split; [|split_and!; reflexivity].
    unfold LandmarkStore.__init__.
    rewrite (save_load_roundtrip _ _ _ Hg), size_dom. reflexivity.
  - intros path w.
    exists (mkWorld (_storage w) (files (snd (LandmarkStore.save path w)))).
    split; [|split_and!; reflexivity].
    unfold LandmarkStore.__init__.
    rewrite (save_load_roundtrip _ _ _ Hc), size_dom. reflexivity.
  - intros path w after. subst after.
    pose proof (save_load_roundtrip path w (_storage w) Hg) as Hrt.
    unfold GlobalLocalisation.save, GlobalLocalisation.load. py_unfold.
    rewrite save_run in *. cbn [snd files] in Hrt. rewrite Hrt.
    split; reflexivity.
  - intros path w after. subst after.
    pose proof (save_load_roundtrip path w (_storage w) Hc) as Hrt.
    unfold CartesianLocalisation.save, CartesianLocalisation.load. py_unfold.
    rewrite save_run in *. cbn [snd files] in Hrt. rewrite Hrt.
    split; reflexivity.
Qed.

(** The round trip on the two worked stores. *)
Example save_then_load_worked :
  _storage (snd (LandmarkStore.load (H:=@GeodeticLandmark_model exact_validators)
                   "landmarks.json"
                   (LandmarkStore.__init__
                      (files (snd (LandmarkStore.save
                                     (H:=@GeodeticLandmark_model exact_validators)
                                     "landmarks.json" world_a)))))) =
    _storage world_a.
Proof.
  unfold LandmarkStore.__init__.
  rewrite save_load_roundtrip; [reflexivity|].
  intros r. apply (geodetic_validate_dict (H:=exact_validators)).
Qed.

(** The file of a Cartesian store that holds a record does not load into a
    geodetic store, whatever the field validators accept. *)
Lemma cartesian_file_rejected_by_geodetic_store (P : Pydantic)
    path (wc : World CartesianLandmark.t) (wg : World GeodeticLandmark.t)
    ident r rs :
  _storage wc !! ident = Some (r :: rs) ->
  files wg = files (snd (LandmarkStore.save path wc)) ->
  exists e, LandmarkStore.load path wg = (Raise e, wg).
Proof.
  intros Hrec Hfiles. rewrite load_run, Hfiles, save_run. cbn [snd files].
  rewrite lookup_insert_eq, serialized_items.
  edestruct (rebuild_raise (R:=GeodeticLandmark.t)) as [e' ->]; [| |eauto].
  - apply list_elem_of_fmap.
    exists (ident, r :: rs). split; [reflexivity|].
    apply elem_of_map_to_list. exact Hrec.
  - unfold LandmarkStore.models_tuple. cbn [py_iter map map_outcome fst snd].
    rewrite cartesian_dict_rejected_by_geodetic. reflexivity.
Qed.

(** What a successful [load] leaves, and that a failed one leaves all as it
    was. *)
Lemma load_return {R} `{BaseModel R} path (w w' : World R) n :
  LandmarkStore.load path w = (Return n, w') ->
  exists d st,
    files w !! path = Some (Document (JDict d)) /\
    LandmarkStore.rebuild (last_bindings d) ∅ = Return st /\
    n = size st /\ w' = mkWorld st (files w).
Proof.
  rewrite load_run. intros Hrun.
  destruct (files w !! path) as [[|raw_data|]|]; try discriminate.
  destruct raw_data; cbn in Hrun; try discriminate.
  destruct (LandmarkStore.rebuild (last_bindings d) ∅) as [st|] eqn:E;
    [|discriminate].
  injection Hrun as <- <-. exists d, st. auto.
Qed.

Lemma load_raise {R} `{BaseModel R} path (w w' : World R) e :
  LandmarkStore.load path w = (Raise e, w') -> w' = w.
Proof.
  rewrite load_run. intros Hrun.
  destruct (files w !! path) as [[|raw_data|]|]; try congruence.
  destruct (items raw_data) as [its|]; [|congruence].
  destruct (LandmarkStore.rebuild its ∅); congruence.
Qed.

(** Fields that are missing or hold a value no field can take. *)

Lemma geodetic_validate_rejected `{Pydantic} kwargs field :
  field ∈ geodetic_fields ->
  kwarg field kwargs = None \/
    (exists v, kwarg field kwargs = Some v /\ unfit v = true) ->
  GeodeticLandmark.validate kwargs = None.
Proof.
  intros Hin [Hnone | (v & Hv & Hunfit)].
  - apply (geodetic_validate_missing _ field Hin Hnone).
  - unfold GeodeticLandmark.validate, required.
    repeat (apply elem_of_cons in Hin as [->|Hin]);
      [..|apply elem_of_nil in Hin; contradiction];
      rewrite Hv; cbn;
      rewrite ?(str_validator_unfit _ Hunfit), ?(float_validator_unfit _ Hunfit); cbn;
      repeat (match goal with
              | |- context [kwarg ?f kwargs ≫= ?val] =>
                  destruct (kwarg f kwargs ≫= val); cbn
              end);
      reflexivity.
Qed.

Lemma cartesian_validate_rejected `{Pydantic} kwargs field :
  field ∈ cartesian_fields ->
  kwarg field kwargs = None \/
    (exists v, kwarg field kwargs = Some v /\ unfit v = true) ->
  CartesianLandmark.validate kwargs = None.
Proof.
  intros Hin [Hnone | (v & Hv & Hunfit)].
  - apply (cartesian_validate_missing _ field Hin Hnone).
  - unfold CartesianLandmark.validate, required.
    repeat (apply elem_of_cons in Hin as [->|Hin]);
      [..|apply elem_of_nil in Hin; contradiction];
      rewrite Hv; cbn;
      rewrite ?(str_validator_unfit _ Hunfit), ?(float_validator_unfit _ Hunfit); cbn;
      repeat (match goal with
              | |- context [kwarg ?f kwargs ≫= ?val] =>
                  destruct (kwarg f kwargs ≫= val); cbn
              end);
      reflexivity.
Qed.

(** Keys that name no field. *)

Lemma geodetic_validate_same_on `{Pydantic} kwargs kwargs' :
  same_on geodetic_fields kwargs kwargs' ->
  GeodeticLandmark.validate kwargs = GeodeticLandmark.validate kwargs'.
Proof.
  intros Hsame. unfold GeodeticLandmark.validate, required.
  rewrite !Hsame by (unfold geodetic_fields; set_solver). reflexivity.
Qed.

Lemma cartesian_validate_same_on `{Pydantic} kwargs kwargs' :
  same_on cartesian_fields kwargs kwargs' ->
  CartesianLandmark.validate kwargs = CartesianLandmark.validate kwargs'.
Proof.
  intros Hsame. unfold CartesianLandmark.validate, required.
  rewrite !Hsame by (unfold cartesian_fields; set_solver). reflexivity.
Qed.

Lemma kwarg_none k d : k ∉ d.*1 -> kwarg k d = None.
Proof.
  induction d as [|[k' v] d IH]; cbn; intros Hk; [reflexivity|].
  apply not_elem_of_cons in Hk as [Hne Hk]. rewrite IH by exact Hk.
  apply String.eqb_neq in Hne. rewrite Hne. reflexivity.
Qed.

Lemma kwarg_app k d e :
  kwarg k (d ++ e) = match kwarg k e with Some v => Some v | None => kwarg k d end.
Proof.
  induction d as [|[k' v] d IH]; cbn.
  - destruct (kwarg k e); reflexivity.
  - rewrite IH. destruct (kwarg k e); reflexivity.
Qed.

Lemma same_on_extra fields kwargs before after :
  (forall k, k ∈ before.*1 ++ after.*1 -> k ∉ fields) ->
  same_on fields kwargs (before ++ kwargs ++ after).
Proof.
  intros Hextra field Hin. rewrite !kwarg_app.
  rewrite (kwarg_none field after), (kwarg_none field before).
  - destruct (kwarg field kwargs); reflexivity.
  - intros Hk. apply (Hextra field); [set_solver|exact Hin].
  - intros Hk. apply (Hextra field); [set_solver|exact Hin].
Qed.

Lemma map_outcome_Forall2 {A B} (f : A -> outcome B) l l' :
  Forall2 (fun x x' => f x = f x') l l' -> map_outcome f l = map_outcome f l'.
Proof.
  induction 1 as [|x x' l l' Hx _ IH]; cbn; [reflexivity|].
  rewrite Hx, IH. reflexivity.
Qed.

Section same_documents_facts.
Context {R : Type} `{BaseModel R}.
Variable fields : list string.
Hypothesis validate_same_on :
  forall kwargs kwargs', same_on fields kwargs kwargs' -> validate kwargs = validate kwargs'.

Lemma construct_same_record o o' :
  same_record fields o o' -> LandmarkStore.construct o = LandmarkStore.construct o'.
Proof.
  intros [-> | (kwargs & kwargs' & -> & -> & Hsame)]; [reflexivity|].
  cbn. rewrite (validate_same_on _ _ Hsame). reflexivity.
Qed.

Lemma same_documents_alike d d' :
  same_documents fields d d' -> Forall2 alike d d'.
Proof.
  intros Hsame. eapply Forall2_impl; [exact Hsame|].
  intros it it' (Hkey & l & l' & Hl & Hl' & Hall). split; [exact Hkey|].
  rewrite Hl, Hl'. unfold LandmarkStore.models_tuple. cbn [py_iter].
  apply map_outcome_Forall2. eapply Forall2_impl; [exact Hall|].
  apply construct_same_record.
Qed.

Lemma dict_set_alike k v v' d d' :
  LandmarkStore.models_tuple v = LandmarkStore.models_tuple v' ->
  Forall2 alike d d' -> Forall2 alike (dict_set k v d) (dict_set k v' d').
Proof.
  intros Hv. induction 1 as [|[k0 v0] [k0' v0'] d d' [Hk Hv0] Hd IH]; cbn.
  - repeat constructor. exact Hv.
  - cbn in Hk, Hv0. subst k0'. destruct (String.eqb k k0).
    + constructor; [split; [reflexivity|exact Hv]|exact Hd].
    + constructor; [split; [reflexivity|exact Hv0]|exact IH].
Qed.

Lemma dict_fold_alike d d' :
  Forall2 alike d d' -> forall sofar sofar',
  Forall2 alike sofar sofar' ->
  Forall2 alike (foldl (fun acc kv => dict_set (fst kv) (snd kv) acc) sofar d)
                (foldl (fun acc kv => dict_set (fst kv) (snd kv) acc) sofar' d').
Proof.
  induction 1 as [|[k v] [k' v'] d d' [Hk Hv] _ IH]; intros sofar sofar' Hsofar;
    [exact Hsofar|].
  cbn in Hk, Hv. subst k'. cbn [foldl fst snd].
  apply IH, dict_set_alike; assumption.
Qed.

Lemma last_bindings_alike d d' :
  Forall2 alike d d' -> Forall2 alike (last_bindings d) (last_bindings d').
Proof. intros Hd. apply (dict_fold_alike _ _ Hd). constructor. Qed.

Lemma rebuild_alike its its' :
  Forall2 alike its its' -> forall acc : gmap string (list R),
  LandmarkStore.rebuild its acc = LandmarkStore.rebuild its' acc.
Proof.
  induction 1 as [|[k v] [k' v'] its its' [Hk Hv] _ IH]; intros acc; [reflexivity|].
  cbn in Hk, Hv. subst k'. cbn [LandmarkStore.rebuild]. rewrite Hv.
  destruct (LandmarkStore.models_tuple v'); [apply IH|reflexivity].
Qed.

(** Loading either of two such documents comes to the same. *)
Lemma load_same_documents path (w w' : World R) d d' :
  files w !! path = Some (Document (JDict d)) ->
  files w' !! path = Some (Document (JDict d')) ->
  same_documents fields d d' ->
  fst (LandmarkStore.load path w) = fst (LandmarkStore.load path w') /\
  (forall n, fst (LandmarkStore.load path w) = Return n ->
     _storage (snd (LandmarkStore.load path w)) =
       _storage (snd (LandmarkStore.load path w'))).
Proof.
  intros Hfile Hfile' Hsame. rewrite !load_run, Hfile, Hfile'. cbn [items].
  rewrite (rebuild_alike _ _
             (last_bindings_alike _ _ (same_documents_alike _ _ Hsame)) ∅).
  destruct (LandmarkStore.rebuild (last_bindings d') ∅); split;
    try reflexivity; discriminate.
Qed.
End same_documents_facts.
(** The undeclared field of [geodetic_with_extra_field] is ignored, whatever
    the field validators. *)
Lemma load_ignores_undeclared_field (P : Pydantic) :
  LandmarkStore.load "landmarks.json" (mkWorld ∅ disk_extra) =
    (Return 1,
     mkWorld {[ "A" := [GeodeticLandmark.mk "A" 1 2 3 1e-6 1e-6 10] ]} disk_extra).
Proof.
  rewrite load_run. cbn [files]. unfold disk_extra at 1.
  rewrite lookup_singleton_eq.
  cbn [items last_bindings existsb LandmarkStore.rebuild
       LandmarkStore.models_tuple py_iter map_outcome geodetic_with_extra_field
       LandmarkStore.construct].
  unfold validate, GeodeticLandmark_model, GeodeticLandmark.validate, required.
  cbn. rewrite str_validator_str. cbn. rewrite !float_validator_float. cbn.
  rewrite insert_empty, map_size_singleton. reflexivity.
Qed.

(** The digits of [geodetic_with_digits] are converted to the number,
    whatever the field validators. *)
Lemma load_converts_digits (P : Pydantic) :
  LandmarkStore.load "landmarks.json" (mkWorld ∅ disk_digits) =
    (Return 1,
     mkWorld {[ "A" := [GeodeticLandmark.mk "A" 12 2 3 1e-6 1e-6 10] ]} disk_digits).
Proof.
  rewrite load_run. cbn [files]. unfold disk_digits at 1.
  rewrite lookup_singleton_eq.
  unfold items, last_bindings.
  cbn [foldl dict_set fst snd LandmarkStore.rebuild
       LandmarkStore.models_tuple py_iter map_outcome geodetic_with_digits
       LandmarkStore.construct].
  unfold validate, GeodeticLandmark_model, GeodeticLandmark.validate, required.
  cbn. rewrite str_validator_str. cbn.
  change "12" with (decimal 12).
  rewrite (float_validator_decimal 12) by (vm_compute; reflexivity).
  cbn. rewrite !float_validator_float. cbn.
  rewrite insert_empty, map_size_singleton. reflexivity.
Qed.




(** ** Aggregation over several landmarks *)

Section multiple_facts.
Variable md5_hexdigest : string -> string.
Implicit Types (w : World GeodeticLandmark.t) (wifi_tuple : list (string * string)).

Lemma accumulate_run a b c wifi w :
  WifiGlobalLocalisation.accumulate md5_hexdigest (a, b, c) wifi w =
    (Return
       (foldl PrimFloat.add a
          (GeodeticLandmark.latitude_deg <$> resolved_estimates md5_hexdigest [wifi] w),
        foldl PrimFloat.add b
          (GeodeticLandmark.longitude_deg <$> resolved_estimates md5_hexdigest [wifi] w),
        foldl PrimFloat.add c
          (GeodeticLandmark.altitude_m <$> resolved_estimates md5_hexdigest [wifi] w)),
     w).
Proof.
  destruct wifi as [ssid mac].
  unfold WifiGlobalLocalisation.accumulate, WifiGlobalLocalisation.localise_wifi.
  py_unfold. rewrite geodetic_localise_run.
  unfold resolved_estimates. cbn [omap list_omap fst snd].
  destruct (default [] (_storage w !! WifiGlobalLocalisation.hash_wifi md5_hexdigest ssid mac));
    reflexivity.
Qed.

Lemma resolved_estimates_cons wifi wifi_tuple w :
  resolved_estimates md5_hexdigest (wifi :: wifi_tuple) w =
    resolved_estimates md5_hexdigest [wifi] w ++
    resolved_estimates md5_hexdigest wifi_tuple w.
Proof.
  unfold resolved_estimates. cbn [omap list_omap].
  destruct (default [] _); reflexivity.
Qed.

Lemma for_each_accumulate_run wifi_tuple w : forall a b c,
  for_each (WifiGlobalLocalisation.accumulate md5_hexdigest) (a, b, c) wifi_tuple w =
    (Return
       (foldl PrimFloat.add a
          (GeodeticLandmark.latitude_deg <$> resolved_estimates md5_hexdigest wifi_tuple w),
        foldl PrimFloat.add b
          (GeodeticLandmark.longitude_deg <$> resolved_estimates md5_hexdigest wifi_tuple w),
        foldl PrimFloat.add c
          (GeodeticLandmark.altitude_m <$> resolved_estimates md5_hexdigest wifi_tuple w)),
     w).
Proof.
  induction wifi_tuple as [|wifi wifi_tuple IH]; intros a b c; [reflexivity|].
  cbn [for_each]. py_unfold. rewrite accumulate_run, IH.
  rewrite (resolved_estimates_cons wifi wifi_tuple w), !fmap_app, !foldl_app.
  reflexivity.
Qed.

(** What [localise_multiple] computes: the sums over the landmarks that
    resolve, each divided by the number of pairs asked for; or the division
    by zero when no pair was asked for. *)
Lemma localise_multiple_run wifi_tuple w :
  WifiGlobalLocalisation.localise_multiple md5_hexdigest wifi_tuple w =
    (match wifi_tuple with
     | [] => Raise ZeroDivisionError
     | _ =>
         let estimates := resolved_estimates md5_hexdigest wifi_tuple w in
         let n := float_of_len (length wifi_tuple) in
         Return
           (PrimFloat.div (float_sum (GeodeticLandmark.latitude_deg <$> estimates)) n,
            PrimFloat.div (float_sum (GeodeticLandmark.longitude_deg <$> estimates)) n,
            PrimFloat.div (float_sum (GeodeticLandmark.altitude_m <$> estimates)) n)
     end, w).
Proof.
  unfold WifiGlobalLocalisation.localise_multiple. py_unfold.
  rewrite for_each_accumulate_run.
  destruct wifi_tuple; reflexivity.
Qed.

(** When every pair asked for resolves, the aggregate is the average of the
    estimates. *)
Lemma localise_multiple_all_resolved wifi_tuple w :
  wifi_tuple <> [] ->
  length (resolved_estimates md5_hexdigest wifi_tuple w) = length wifi_tuple ->
  WifiGlobalLocalisation.localise_multiple md5_hexdigest wifi_tuple w =
    (Return (average_of_resolved (resolved_estimates md5_hexdigest wifi_tuple w)), w).
Proof.
  intros Hne Hlen. rewrite localise_multiple_run.
  destruct wifi_tuple as [|wifi rest]; [contradiction|].
  unfold average_of_resolved, arithmetic_mean.
  rewrite !length_fmap, Hlen. reflexivity.
Qed.
End multiple_facts.

(** C3. [localise] guards the empty record sequence and so never divides by
    zero: it always returns. [localise_multiple] has no such guard: asked
    for no pair, it divides by the zero length of its input and raises. *)
Theorem localise_multiple_empty_input_divides_by_zero :
  (forall ident (w : World GeodeticLandmark.t),
      exists r, GlobalLocalisation.localise ident w = (Return r, w)) /\
  (forall ident (w : World CartesianLandmark.t),
      exists r, CartesianLocalisation.localise ident w = (Return r, w)) /\
  (forall md5_hexdigest (w : World GeodeticLandmark.t),
      WifiGlobalLocalisation.localise_multiple md5_hexdigest [] w =
        (Raise ZeroDivisionError, w)).
Proof.
  split_and!.
  - intros ident w. eexists. apply geodetic_localise_run.
  - intros ident w. eexists. apply cartesian_localise_run.
  - intros md5_hexdigest w. apply localise_multiple_run.
Qed.

Lemma float_1_neq_2 : 1%float <> 2%float.
Proof.
  intros Heq. apply (f_equal (fun x => PrimFloat.eqb x 1)) in Heq.
  vm_compute in Heq. discriminate.
Qed.

(** C2. Of two pairs asked for, one resolving to the single record (2,4,6)
    and the other unknown, [localise_multiple] returns (1,2,3): the sum over
    the landmark that resolved, divided by the two pairs asked for. The
    average over the landmarks that did resolve is (2,4,6). *)
Theorem localise_multiple_divides_by_input_count
    (P : Pydantic) (md5_hexdigest : string -> string) disk :
  WifiGlobalLocalisation.hash_wifi md5_hexdigest "home" "aa:bb" <>
    WifiGlobalLocalisation.hash_wifi md5_hexdigest "cafe" "cc:dd" ->
  let w := snd (WifiGlobalLocalisation.add_wifi_data md5_hexdigest "home" "aa:bb" 2 4 6
                  (GlobalLocalisation.__init__ disk)) in
  let wifi_tuple := [("home", "aa:bb"); ("cafe", "cc:dd")] in
  WifiGlobalLocalisation.localise_multiple md5_hexdigest wifi_tuple w =
    (Return (1%float, 2%float, 3%float), w) /\
  average_of_resolved (resolved_estimates md5_hexdigest wifi_tuple w) =
    (2%float, 4%float, 6%float) /\
  (1%float, 2%float, 3%float) <> (2%float, 4%float, 6%float).
Proof.
  intros Hne w wifi_tuple.
  assert (Hest : resolved_estimates md5_hexdigest wifi_tuple w =
            [geodetic_estimate (WifiGlobalLocalisation.hash_wifi md5_hexdigest "home" "aa:bb")
               [GeodeticLandmark.mk
                  (WifiGlobalLocalisation.hash_wifi md5_hexdigest "home" "aa:bb")
                  2 4 6 default_latitude_uncertainty_deg
                  default_longitude_uncertainty_deg default_altitude_uncertainty_m]]).
  { subst w wifi_tuple. unfold WifiGlobalLocalisation.add_wifi_data,
      GlobalLocalisation.add_data. py_unfold. rewrite put_run.
    unfold resolved_estimates. cbn [omap list_omap fst snd _storage identifier
      GeodeticLandmark_model GeodeticLandmark.identifier
      GlobalLocalisation.__init__ LandmarkStore.__init__].
    rewrite lookup_insert_eq, lookup_insert_ne, !lookup_empty by exact Hne.
    reflexivity. }
  split_and!.
  - rewrite localise_multiple_run. cbn zeta. subst wifi_tuple. cbn match.
    rewrite Hest. f_equal.
  - rewrite Hest. reflexivity.
  - intros Heq. apply (f_equal (fun t => fst (fst t))) in Heq.
    exact (float_1_neq_2 Heq).
Qed.

(** The same run with the identity standing in for the digest. *)
Lemma localise_multiple_divides_by_input_count_witness :
  fst (WifiGlobalLocalisation.localise_multiple (fun text => text)
         [("home", "aa:bb"); ("cafe", "cc:dd")]
         (snd (WifiGlobalLocalisation.add_wifi_data (H:=exact_validators)
                 (fun text => text) "home" "aa:bb" 2 4 6
                 (GlobalLocalisation.__init__ ∅)))) =
    Return (1%float, 2%float, 3%float).
Proof.
  destruct (localise_multiple_divides_by_input_count exact_validators
              (fun text => text) ∅) as (Hrun & _).
  - discriminate.
  - rewrite Hrun. reflexivity.
Defined.

(** * Further properties of the code *)

(** ** [add_data] *)

Lemma geodetic_add_data_run `{Pydantic} ident lat lon alt u1 u2 u3
    (w : World GeodeticLandmark.t) :
  GlobalLocalisation.add_data ident lat lon alt u1 u2 u3 w =
    (Return tt,
     mkWorld (<[ident := default [] (_storage w !! ident) ++
                           [GeodeticLandmark.mk ident lat lon alt u1 u2 u3]]> (_storage w))
             (files w)).
Proof.
  unfold GlobalLocalisation.add_data. py_unfold. rewrite put_run. reflexivity.
Qed.

Lemma cartesian_add_data_run `{Pydantic} ident x y z u (w : World CartesianLandmark.t) :
  CartesianLocalisation.add_data ident x y z u w =
    (Return tt,
     mkWorld (<[ident := default [] (_storage w !! ident) ++
                           [CartesianLandmark.mk ident x y z u]]> (_storage w))
             (files w)).
Proof.
  unfold CartesianLocalisation.add_data. py_unfold. rewrite put_run. reflexivity.
Qed.

(** X1. [add_data] never raises and returns nothing; afterwards [get_data]
    for the identifier gives the previous records followed by one record
    holding exactly the identifier, coordinates and uncertainties passed;
    the records of every other identifier and the files are as before. The
    number of identifiers grows by one when the identifier is new and stays
    the same otherwise. Geodetic and Cartesian engine alike. *)
Theorem add_data_appends_the_given_record (P : Pydantic) :
  (forall ident lat lon alt u1 u2 u3 (w : World GeodeticLandmark.t),
      exists w',
        GlobalLocalisation.add_data ident lat lon alt u1 u2 u3 w = (Return tt, w') /\
        fst (GlobalLocalisation.get_data ident w') =
          Return (default [] (_storage w !! ident) ++
                    [GeodeticLandmark.mk ident lat lon alt u1 u2 u3]) /\
        (forall other, other <> ident ->
           fst (GlobalLocalisation.get_data other w') =
             fst (GlobalLocalisation.get_data other w)) /\
        files w' = files w /\
        fst (GlobalLocalisation.__len__ w') =
          Return (if decide (ident ∈ dom (_storage w))
                  then size (_storage w) else S (size (_storage w)))) /\
  (forall ident x y z u (w : World CartesianLandmark.t),
      exists w',
        CartesianLocalisation.add_data ident x y z u w = (Return tt, w') /\
        fst (CartesianLocalisation.get_data ident w') =
          Return (default [] (_storage w !! ident) ++
                    [CartesianLandmark.mk ident x y z u]) /\
        (forall other, other <> ident ->
           fst (CartesianLocalisation.get_data other w') =
             fst (CartesianLocalisation.get_data other w)) /\
        files w' = files w /\
        fst (CartesianLocalisation.__len__ w') =
          Return (if decide (ident ∈ dom (_storage w))
                  then size (_storage w) else S (size (_storage w)))).
Proof.
  split.
  - intros ident lat lon alt u1 u2 u3 w. eexists.
    split; [apply geodetic_add_data_run|]. split_and!.
    + unfold GlobalLocalisation.get_data. rewrite get_run. cbn.
      rewrite lookup_insert_eq. reflexivity.
    + intros other Hne. unfold GlobalLocalisation.get_data. rewrite !get_run. cbn.
      rewrite lookup_insert_ne by congruence. reflexivity.
    + reflexivity.
    + unfold GlobalLocalisation.__len__. rewrite len_run. cbn. f_equal.
      pose (datum := GeodeticLandmark.mk ident lat lon alt u1 u2 u3).
      pose proof (put_size_existing datum w) as Hold.
      pose proof (put_size_new datum w) as Hnew.
      rewrite put_run in Hold, Hnew. cbn in Hold, Hnew.
      case_decide; auto.
  - intros ident x y z u w. eexists.
    split; [apply cartesian_add_data_run|]. split_and!.
    + unfold CartesianLocalisation.get_data. rewrite get_run. cbn.
      rewrite lookup_insert_eq. reflexivity.
    + intros other Hne. unfold CartesianLocalisation.get_data. rewrite !get_run. cbn.
      rewrite lookup_insert_ne by congruence. reflexivity.
    + reflexivity.
    + unfold CartesianLocalisation.__len__. rewrite len_run. cbn. f_equal.
      pose (datum := CartesianLandmark.mk ident x y z u).
      pose proof (put_size_existing datum w) as Hold.
      pose proof (put_size_new datum w) as Hnew.
      rewrite put_run in Hold, Hnew. cbn in Hold, Hnew.
      case_decide; auto.
Qed.

(** Adding under "B" to the worked store leaves "A" as it was. *)
Lemma add_data_appends_the_given_record_witness :
  fst (GlobalLocalisation.get_data "A"
         (snd (GlobalLocalisation.add_data (H:=exact_validators) "B" 7 8 9 1e-6 1e-6 10
                 world_a))) =
    Return [record_a1; record_a2].
Proof.
  destruct (add_data_appends_the_given_record exact_validators) as (Hg & _).
  destruct (Hg "B" 7 8 9 1e-6 1e-6 10 world_a)%float
    as (w' & Hrun & _ & Hother & _).
  rewrite Hrun. cbn [snd]. rewrite (Hother "A"); [reflexivity|discriminate].
Defined.

(** ** What [put] keeps *)

Section put_invariants.
Context {R : Type} `{BaseModel R}.
Implicit Types (w : World R) (datum : R).

Lemma well_keyed_empty : well_keyed (∅ : gmap string (list R)).
Proof. intros k rs Hk. rewrite lookup_empty in Hk. discriminate. Qed.

Lemma well_keyed_put datum w :
  well_keyed (_storage w) ->
  well_keyed (_storage (snd (LandmarkStore.put datum w))).
Proof.
  intros Hwk k rs. rewrite put_run. cbn [snd _storage].
  destruct (decide (k = identifier datum)) as [->|Hne].
  - rewrite lookup_insert_eq. intros [= <-]. split.
    + intros Hnil. apply app_eq_nil in Hnil as [_ Hnil]. discriminate.
    + apply Forall_app. split; [|repeat constructor].
      destruct (_storage w !! identifier datum) as [existing|] eqn:E;
        [|constructor].
      apply (Hwk _ _ E).
  - rewrite lookup_insert_ne by congruence. apply Hwk.
Qed.

Lemma well_keyed_for_each_put data : forall w,
  well_keyed (_storage w) ->
  well_keyed (_storage (snd (put_all data w))).
Proof.
  induction data as [|datum data IH]; intros w Hwk; [exact Hwk|].
  unfold put_all. cbn [for_each]. py_unfold.
  pose proof (well_keyed_put datum w Hwk) as Hstep.
  rewrite put_run in *. cbn [snd] in Hstep. apply (IH _ Hstep).
Qed.

Lemma put_prefix datum w k :
  default [] (_storage w !! k) `prefix_of`
    default [] (_storage (snd (LandmarkStore.put datum w)) !! k).
Proof.
  rewrite put_run. cbn [snd _storage].
  destruct (decide (k = identifier datum)) as [->|Hne].
  - rewrite lookup_insert_eq. cbn. apply prefix_app_r. reflexivity.
  - rewrite lookup_insert_ne by congruence. reflexivity.
Qed.

Lemma put_all_prefix data : forall w k,
  default [] (_storage w !! k) `prefix_of`
    default [] (_storage (snd (put_all data w)) !! k).
Proof.
  induction data as [|datum data IH]; intros w k; [reflexivity|].
  unfold put_all. cbn [for_each]. py_unfold.
  pose proof (put_prefix datum w k) as Hstep.
  rewrite put_run in *. cbn [snd] in Hstep.
  etrans; [exact Hstep|]. apply IH.
Qed.
End put_invariants.

(** X2. A store that is only ever written by [put] keeps this shape: every
    key holds at least one record, and every record is stored under its own
    identifier. It holds on a fresh store, each [put] keeps it, and so does
    every sequence of puts. *)
Theorem put_keeps_records_under_their_identifier {R} `{BaseModel R} :
  (forall disk, well_keyed (_storage (LandmarkStore.__init__ (R:=R) disk))) /\
  (forall (datum : R) (w : World R),
      well_keyed (_storage w) ->
      well_keyed (_storage (snd (LandmarkStore.put datum w)))) /\
  (forall (data : list R) disk,
      well_keyed (_storage (snd (put_all data (LandmarkStore.__init__ disk))))).
Proof.
  split_and!.
  - intros disk. apply well_keyed_empty.
  - apply well_keyed_put.
  - intros data disk. apply well_keyed_for_each_put, well_keyed_empty.
Qed.

(** After putting a record under "B" into a fresh store and another under
    "A", the key "A" holds records of identifier "A" only. *)
Lemma put_keeps_records_under_their_identifier_witness :
  Forall (fun r => GeodeticLandmark.identifier r = "A") [record_a1].
Proof.
  destruct (put_keeps_records_under_their_identifier
              (H:=@GeodeticLandmark_model exact_validators)) as (Hfresh & Hput & _).
  pose proof (Hput record_a1 _ (Hput record_b _ (Hfresh ∅))) as Hwk.
  destruct (Hwk "A" [record_a1]) as [_ Hall]; [reflexivity|exact Hall].
Defined.

(** X3. The store is append-only: whatever sequence of records is put, the
    records an identifier had before are still there afterwards, in the same
    order and at the front; nothing is removed or rewritten. *)
Theorem put_only_appends {R} `{BaseModel R} (data : list R) (w : World R) ident :
  exists before added,
    fst (LandmarkStore.get ident w) = Return before /\
    fst (LandmarkStore.get ident (snd (put_all data w))) = Return (before ++ added) /\
    dom (_storage w) ⊆ dom (_storage (snd (put_all data w))).
Proof.
  destruct (put_all_prefix data w ident) as [added Hadded].
  exists (default [] (_storage w !! ident)), added.
  rewrite !get_run. cbn [fst]. split; [reflexivity|]. split; [congruence|].
  destruct (put_all_run data w) as (w' & Hrun & _ & Hdom).
  rewrite Hrun. cbn [snd]. rewrite Hdom. set_solver.
Qed.

(** ** When [localise] has an answer *)

Lemma geodetic_localise_some ident (w : World GeodeticLandmark.t) :
  (exists r, GlobalLocalisation.localise ident w = (Return (Some r), w)) <->
  default [] (_storage w !! ident) <> [].
Proof.
  rewrite geodetic_localise_run.
  destruct (default [] (_storage w !! ident)); split.
  - intros [r Hr]. discriminate.
  - intros Hne. contradiction.
  - discriminate.
  - eauto.
Qed.

Lemma cartesian_localise_some ident (w : World CartesianLandmark.t) :
  (exists r, CartesianLocalisation.localise ident w = (Return (Some r), w)) <->
  default [] (_storage w !! ident) <> [].
Proof.
  rewrite cartesian_localise_run.
  destruct (default [] (_storage w !! ident)); split.
  - intros [r Hr]. discriminate.
  - intros Hne. contradiction.
  - discriminate.
  - eauto.
Qed.

Lemma well_keyed_nonempty {R} `{BaseModel R} (st : gmap string (list R)) ident :
  well_keyed st -> (ident ∈ dom st <-> default [] (st !! ident) <> []).
Proof.
  intros Hwk. rewrite elem_of_dom. split.
  - intros [rs Hrs]. rewrite Hrs. apply (Hwk _ _ Hrs).
  - destruct (st !! ident); [eauto|]. intros Hne. contradiction.
Qed.

(** X4. An identifier that has just been given to [add_data] always
    localises: [localise] returns a record for it, whatever the engine held
    before. And on an engine filled by [add_data] alone (one whose store has
    the shape [put] keeps), [localise] returns a record exactly for the
    identifiers the store counts. *)
Theorem localise_answers_for_stored_identifiers (P : Pydantic) :
  (forall ident lat lon alt u1 u2 u3 (w : World GeodeticLandmark.t),
      exists r w',
        (_ ← GlobalLocalisation.add_data ident lat lon alt u1 u2 u3;
         GlobalLocalisation.localise ident) w = (Return (Some r), w')) /\
  (forall ident x y z u (w : World CartesianLandmark.t),
      exists r w',
        (_ ← CartesianLocalisation.add_data ident x y z u;
         CartesianLocalisation.localise ident) w = (Return (Some r), w')) /\
  (forall ident (w : World GeodeticLandmark.t),
      well_keyed (_storage w) ->
      (ident ∈ dom (_storage w) <->
       exists r, GlobalLocalisation.localise ident w = (Return (Some r), w))) /\
  (forall ident (w : World CartesianLandmark.t),
      well_keyed (_storage w) ->
      (ident ∈ dom (_storage w) <->
       exists r, CartesianLocalisation.localise ident w = (Return (Some r), w))).
Proof.
  split_and!.
  - intros ident lat lon alt u1 u2 u3 w. py_unfold.
    rewrite geodetic_add_data_run.
    edestruct (proj2 (geodetic_localise_some ident
      (mkWorld (<[ident := default [] (_storage w !! ident) ++
                  [GeodeticLandmark.mk ident lat lon alt u1 u2 u3]]> (_storage w))
               (files w)))) as [r Hr]; [|eauto].
    cbn. rewrite lookup_insert_eq. cbn. intros Hnil.
    apply app_eq_nil in Hnil as [_ Hnil]. discriminate.
  - intros ident x y z u w. py_unfold.
    rewrite cartesian_add_data_run.
    edestruct (proj2 (cartesian_localise_some ident
      (mkWorld (<[ident := default [] (_storage w !! ident) ++
                  [CartesianLandmark.mk ident x y z u]]> (_storage w))
               (files w)))) as [r Hr]; [|eauto].
    cbn. rewrite lookup_insert_eq. cbn. intros Hnil.
    apply app_eq_nil in Hnil as [_ Hnil]. discriminate.
  - intros ident w Hwk.
    rewrite geodetic_localise_some. apply well_keyed_nonempty, Hwk.
  - intros ident w Hwk.
    rewrite cartesian_localise_some. apply well_keyed_nonempty, Hwk.
Qed.

Lemma world_a_well_keyed :
  well_keyed (H:=@GeodeticLandmark_model exact_validators) (_storage world_a).
Proof.
  intros k rs Hk. unfold world_a in Hk. cbn [_storage] in Hk.
  apply lookup_singleton_Some in Hk as [<- <-].
  split; [discriminate|]. repeat constructor.
Qed.

(** The worked store answers for "A", which it counts. *)
Lemma localise_answers_for_stored_identifiers_witness :
  exists r, GlobalLocalisation.localise "A" world_a = (Return (Some r), world_a).
Proof.
  destruct (localise_answers_for_stored_identifiers exact_validators)
    as (_ & _ & Hg & _).
  apply (Hg "A" world_a world_a_well_keyed).
  apply elem_of_dom. eexists. reflexivity.
Defined.

(** ** Edges of [load] *)

Lemma load_single_entry {R} `{BaseModel R} path (w : World R) k models_list rs :
  files w !! path = Some (Document (JDict [(k, models_list)])) ->
  LandmarkStore.models_tuple models_list = Return rs ->
  LandmarkStore.load path w = (Return 1, mkWorld {[k := rs]} (files w)).
Proof.
  intros Hfile Hml. rewrite load_run, Hfile.
  unfold items, last_bindings.
  cbn [foldl dict_set fst snd LandmarkStore.rebuild]. rewrite Hml.
  rewrite insert_empty, map_size_singleton. reflexivity.
Qed.

(** X5. [load] files the records of a document under the document's keys and
    never looks at their own [identifier] field: a file whose key [k] lists
    one record is loaded as [k] holding that record, whatever identifier the
    record carries. When the two differ, the loaded store no longer has the
    shape [put] keeps, and [get] under the record's own identifier finds
    nothing. *)
Theorem load_files_records_under_the_document_key {R} `{BaseModel R}
    (k : string) (r : R) path (w : World R) :
  dict_validates R ->
  files w !! path = Some (Document (JDict [(k, JList [JDict (dict r)])])) ->
  exists w',
    LandmarkStore.load path w = (Return 1, w') /\
    fst (LandmarkStore.get k w') = Return [r] /\
    (identifier r <> k ->
       fst (LandmarkStore.get (identifier r) w') = Return [] /\
       ~ well_keyed (_storage w')).
Proof.
  intros Hlaw Hfile. eexists. split.
  - apply (load_single_entry _ _ _ _ [r] Hfile).
    apply (models_tuple_serialized [r] Hlaw).
  - split.
    + rewrite get_run. cbn. rewrite lookup_singleton_eq. reflexivity.
    + intros Hne. split.
      * rewrite get_run. cbn. rewrite lookup_singleton_ne by congruence. reflexivity.
      * intros Hwk. destruct (Hwk k [r]) as [_ Hall].
        -- cbn. apply lookup_singleton_eq.
        -- apply Forall_cons in Hall as [Hid _]. contradiction.
Qed.

(** A file that lists the record of "B" under the key "A". *)
Lemma load_files_records_under_the_document_key_witness :
  fst (LandmarkStore.get "A"
         (snd (LandmarkStore.load (H:=@GeodeticLandmark_model exact_validators) "swapped.json"
                 (mkWorld ∅ {[ "swapped.json" :=
                      Document (JDict [("A", JList [JDict (GeodeticLandmark.dict record_b)])]) ]})))) =
    Return [record_b].
Proof.
  destruct (load_files_records_under_the_document_key
              (H:=@GeodeticLandmark_model exact_validators) "A" record_b "swapped.json"
              (mkWorld ∅ {[ "swapped.json" :=
                   Document (JDict [("A", JList [JDict (GeodeticLandmark.dict record_b)])]) ]}))
    as (w' & Hrun & Hget & _).
  - intros r. apply (geodetic_validate_dict (H:=exact_validators)).
  - reflexivity.
  - rewrite Hrun. exact Hget.
Defined.

(** X6. [load] accepts an identifier without records: when the value of a
    key is the empty list (or the empty string, or the empty object, which
    iterate to nothing), the key is loaded with the empty sequence. Such an
    identifier is counted by [len], yet [get_data] gives no record for it
    and [localise] answers [None]. *)
Theorem load_accepts_identifiers_without_records (P : Pydantic)
    (k : string) models_list path (w : World GeodeticLandmark.t) :
  models_list = JList [] \/ models_list = JStr "" \/ models_list = JDict [] ->
  files w !! path = Some (Document (JDict [(k, models_list)])) ->
  exists w',
    LandmarkStore.load path w = (Return 1, w') /\
    k ∈ dom (_storage w') /\
    fst (GlobalLocalisation.__len__ w') = Return 1 /\
    fst (GlobalLocalisation.get_data k w') = Return [] /\
    fst (GlobalLocalisation.localise k w') = Return None.
Proof.
  intros Hml Hfile. eexists. split.
  - apply (load_single_entry _ _ _ _ [] Hfile).
    destruct Hml as [-> | [-> | ->]]; reflexivity.
  - split_and!.
    + cbn. rewrite dom_singleton_L. set_solver.
    + unfold GlobalLocalisation.__len__. rewrite len_run. cbn.
      rewrite map_size_singleton. reflexivity.
    + unfold GlobalLocalisation.get_data. rewrite get_run. cbn.
      rewrite lookup_singleton_eq. reflexivity.
    + rewrite geodetic_localise_run. cbn.
      rewrite lookup_singleton_eq. reflexivity.
Qed.

(** A file that names "ghost" with an empty list. *)
Lemma load_accepts_identifiers_without_records_witness :
  fst ((_ ← GlobalLocalisation.load (H:=exact_validators) "ghost.json";
        GlobalLocalisation.localise "ghost")
         (mkWorld ∅ {[ "ghost.json" := Document (JDict [("ghost", JList [])]) ]})) =
    Return None.
Proof.
  destruct (load_accepts_identifiers_without_records exact_validators
              "ghost" (JList []) "ghost.json"
              (mkWorld ∅ {[ "ghost.json" := Document (JDict [("ghost", JList [])]) ]}))
    as (w' & Hrun & _ & _ & _ & Hloc); [left; reflexivity|reflexivity|].
  unfold GlobalLocalisation.load. py_unfold. rewrite Hrun. exact Hloc.
Defined.

(** X7. [load] raises, and leaves the store as it was, whenever the value of
    some key of the document is not a sequence of objects: a value that
    cannot be iterated ([null], a boolean, a number), a non-empty string or
    object (whose items are strings, not mappings), or a list with an element
    that is not an object. For the values other than lists the error of the
    conversion is a [TypeError]. *)
Theorem load_raises_on_values_that_are_not_sequences_of_objects {R} `{BaseModel R}
    path (w : World R) d k models_list :
  files w !! path = Some (Document (JDict d)) ->
  (k, models_list) ∈ last_bindings d ->
  (models_list = JNone \/ (exists b, models_list = JBool b) \/
   (exists z, models_list = JInt z) \/ (exists f, models_list = JFloat f) \/
   (exists c s, models_list = JStr (String c s)) \/
   (exists kv d', models_list = JDict (kv :: d')) ->
   LandmarkStore.models_tuple models_list = Raise TypeError) /\
  (models_list = JNone \/ (exists b, models_list = JBool b) \/
   (exists z, models_list = JInt z) \/ (exists f, models_list = JFloat f) \/
   (exists c s, models_list = JStr (String c s)) \/
   (exists kv d', models_list = JDict (kv :: d')) \/
   (exists l o, models_list = JList l /\ o ∈ l /\ forall kwargs, o <> JDict kwargs) ->
   exists e, LandmarkStore.load path w = (Raise e, w)).
Proof.
  intros Hfile Hin.
  assert (Hte : models_list = JNone \/ (exists b, models_list = JBool b) \/
   (exists z, models_list = JInt z) \/ (exists f, models_list = JFloat f) \/
   (exists c s, models_list = JStr (String c s)) \/
   (exists kv d', models_list = JDict (kv :: d')) ->
   LandmarkStore.models_tuple models_list = Raise TypeError).
  { intros [-> | [[b ->] | [[z ->] | [[f ->] | [(c & s & ->) | (kv & d' & ->)]]]]];
      reflexivity. }
  split; [exact Hte|].
  intros Hbad.
  assert (exists e, LandmarkStore.models_tuple models_list = Raise e) as [e He].
  { destruct Hbad as [Hb | [Hb | [Hb | [Hb | [Hb | [Hb | (l & o & -> & Ho & Hnd)]]]]]];
      try (exists TypeError; apply Hte; tauto).
    apply (models_tuple_raise l o TypeError Ho).
    destruct o; try reflexivity. destruct (Hnd d0). reflexivity. }
  rewrite load_run, Hfile. cbn [items].
  destruct (rebuild_raise _ ∅ _ _ _ Hin He) as [e' ->]. eauto.
Qed.

(** A file whose key "A" holds [null]. *)
Lemma load_raises_on_values_that_are_not_sequences_of_objects_witness :
  exists e,
    LandmarkStore.load (H:=@GeodeticLandmark_model exact_validators) "null.json"
      (mkWorld {[ "A" := [record_a1] ]}
               {[ "null.json" := Document (JDict [("A", JNone)]) ]}) =
      (Raise e,
       mkWorld {[ "A" := [record_a1] ]}
               {[ "null.json" := Document (JDict [("A", JNone)]) ]}).
Proof.
  destruct (load_raises_on_values_that_are_not_sequences_of_objects
              (H:=@GeodeticLandmark_model exact_validators) "null.json"
              (mkWorld {[ "A" := [record_a1] ]}
                       {[ "null.json" := Document (JDict [("A", JNone)]) ]})
              [("A", JNone)] "A" JNone) as (_ & Hraise).
  - reflexivity.
  - cbn. set_solver.
  - apply Hraise. left. reflexivity.
Defined.

(** ** What [save] writes *)

Lemma geodetic_dict_matches_schema (r : GeodeticLandmark.t) :
  matches_schema geodetic_fields (JDict (GeodeticLandmark.dict r)) = true.
Proof. destruct r. reflexivity. Qed.

Lemma cartesian_dict_matches_schema (r : CartesianLandmark.t) :
  matches_schema cartesian_fields (JDict (CartesianLandmark.dict r)) = true.
Proof. destruct r. reflexivity. Qed.

Lemma saved_document_shape {R} `{BaseModel R} (fields : list string) path (w : World R) :
  (forall r : R, matches_schema fields (JDict (dict r)) = true) ->
  exists d,
    files (snd (LandmarkStore.save path w)) !! path = Some (Document (JDict d)) /\
    NoDup d.*1 /\
    (forall k, k ∈ d.*1 <-> k ∈ dom (_storage w)) /\
    (forall k v, (k, v) ∈ d ->
       exists rs objs,
         _storage w !! k = Some rs /\ v = JList objs /\
         length objs = length rs /\
         Forall (fun o => matches_schema fields o = true) objs).
Proof.
  intros Hschema. rewrite save_run. cbn [snd files]. rewrite lookup_insert_eq.
  eexists. split; [reflexivity|].
  assert (Hkeys :
    (map (fun kv : string * list R =>
            (fst kv, JList (map (fun model => JDict (dict model)) (snd kv))))
         (map_to_list (_storage w))).*1 = (map_to_list (_storage w)).*1).
  { rewrite <- list_fmap_compose. apply list_fmap_ext. reflexivity. }
  split_and!.
  - rewrite Hkeys. apply NoDup_fst_map_to_list.
  - intros k. rewrite Hkeys, elem_of_dom. split.
    + intros Hin. apply list_elem_of_fmap in Hin as ([k' rs] & -> & Hin).
      apply elem_of_map_to_list in Hin. eauto.
    + intros [rs Hrs]. apply list_elem_of_fmap. exists (k, rs).
      split; [reflexivity|]. apply elem_of_map_to_list. exact Hrs.
  - intros k v Hin. apply list_elem_of_fmap in Hin as ([k' rs] & Heq & Hin).
    cbn in Heq. injection Heq as -> ->.
    apply elem_of_map_to_list in Hin.
    exists rs, (map (fun model => JDict (dict model)) rs).
    split_and!; [exact Hin|reflexivity|apply length_map|].
    apply Forall_forall. intros o Ho.
    apply list_elem_of_fmap in Ho as (r & -> & _). apply Hschema.
Qed.

(** X9. The document [save] writes is a JSON object with one key per stored
    identifier, no key twice, each holding a list with one object per record
    of that identifier; and every such object has exactly the fields of the
    store's variant, the identifier as a string and the others as numbers. *)
Theorem save_writes_one_conformant_object_per_record (P : Pydantic) :
  (forall path (w : World GeodeticLandmark.t),
      exists d,
        files (snd (LandmarkStore.save path w)) !! path = Some (Document (JDict d)) /\
        NoDup d.*1 /\
        (forall k, k ∈ d.*1 <-> k ∈ dom (_storage w)) /\
        (forall k v, (k, v) ∈ d ->
           exists rs objs,
             _storage w !! k = Some rs /\ v = JList objs /\
             length objs = length rs /\
             Forall (fun o => matches_schema geodetic_fields o = true) objs)) /\
  (forall path (w : World CartesianLandmark.t),
      exists d,
        files (snd (LandmarkStore.save path w)) !! path = Some (Document (JDict d)) /\
        NoDup d.*1 /\
        (forall k, k ∈ d.*1 <-> k ∈ dom (_storage w)) /\
        (forall k v, (k, v) ∈ d ->
           exists rs objs,
             _storage w !! k = Some rs /\ v = JList objs /\
             length objs = length rs /\
             Forall (fun o => matches_schema cartesian_fields o = true) objs)).
Proof.
  split; intros path w.
  - apply saved_document_shape. apply geodetic_dict_matches_schema.
  - apply saved_document_shape. apply cartesian_dict_matches_schema.
Qed.

(** The worked store is written as one key without repetition. *)
Lemma save_writes_one_conformant_object_per_record_witness :
  exists d,
    files (snd (LandmarkStore.save (H:=@GeodeticLandmark_model exact_validators)
                  "landmarks.json" world_a)) !! "landmarks.json" =
      Some (Document (JDict d)) /\
    NoDup d.*1.
Proof.
  destruct (save_writes_one_conformant_object_per_record exact_validators) as (Hg & _).
  destruct (Hg "landmarks.json" world_a) as (d & Hfile & Hnd & _).
  exists d. split; [exact Hfile|exact Hnd].
Defined.

(** ** The WiFi consumer *)

Lemma resolved_estimates_length md5_hexdigest wifi_tuple (w : World GeodeticLandmark.t) :
  (forall wifi, wifi ∈ wifi_tuple ->
     default [] (_storage w !!
       WifiGlobalLocalisation.hash_wifi md5_hexdigest (fst wifi) (snd wifi)) <> []) ->
  length (resolved_estimates md5_hexdigest wifi_tuple w) = length wifi_tuple.
Proof.
  induction wifi_tuple as [|wifi wifi_tuple IH]; intros Hall; [reflexivity|].
  rewrite (resolved_estimates_cons md5_hexdigest wifi wifi_tuple w), length_app.
  rewrite IH by (intros wifi' Hin; apply Hall; set_solver).
  unfold resolved_estimates. cbn [omap list_omap].
  pose proof (Hall wifi ltac:(set_solver)) as Hne.
  destruct (default [] _); [contradiction|reflexivity].
Qed.

(** X10. Asked for at least one pair, [localise_multiple] never raises and
    leaves the engine as it was; each coordinate it returns is the sum of
    that coordinate over the estimates of the pairs that resolve, taken in
    the order asked, divided by the number of pairs asked for. When every
    pair resolves this is the average of the estimates. *)
Theorem localise_multiple_on_nonempty_input
    md5_hexdigest wifi_tuple (w : World GeodeticLandmark.t) :
  wifi_tuple <> [] ->
  let estimates := resolved_estimates md5_hexdigest wifi_tuple w in
  let n := float_of_len (length wifi_tuple) in
  WifiGlobalLocalisation.localise_multiple md5_hexdigest wifi_tuple w =
    (Return
       (PrimFloat.div (float_sum (GeodeticLandmark.latitude_deg <$> estimates)) n,
        PrimFloat.div (float_sum (GeodeticLandmark.longitude_deg <$> estimates)) n,
        PrimFloat.div (float_sum (GeodeticLandmark.altitude_m <$> estimates)) n), w) /\
  (length estimates = length wifi_tuple ->
   WifiGlobalLocalisation.localise_multiple md5_hexdigest wifi_tuple w =
     (Return (average_of_resolved estimates), w)).
Proof.
  intros Hne estimates n. split.
  - rewrite localise_multiple_run. destruct wifi_tuple; [contradiction|reflexivity].
  - intros Hlen. apply localise_multiple_all_resolved; assumption.
Qed.

(** Asking the worked store for "A" (the digest left as the identity, the
    pair split as "A" and the empty string). *)
Lemma localise_multiple_on_nonempty_input_witness :
  WifiGlobalLocalisation.localise_multiple (fun text => text) [("A", "")] world_a =
    (Return (1%float, 2%float, 3%float), world_a).
Proof.
  destruct (localise_multiple_on_nonempty_input (fun text => text) [("A", "")] world_a)
    as (Hrun & _); [discriminate|].
  rewrite Hrun. reflexivity.
Defined.

Section scan_facts.
Context `{Pydantic}.
Variable md5_hexdigest : string -> string.
Implicit Types (w : World GeodeticLandmark.t) (wifi_data : list (string * string)).

Lemma add_wifi_data_run ssid mac lat lon alt w :
  WifiGlobalLocalisation.add_wifi_data md5_hexdigest ssid mac lat lon alt w =
    let ident := WifiGlobalLocalisation.hash_wifi md5_hexdigest ssid mac in
    (Return tt,
     mkWorld (<[ident := default [] (_storage w !! ident) ++
                [GeodeticLandmark.mk ident lat lon alt
                   default_latitude_uncertainty_deg default_longitude_uncertainty_deg
                   default_altitude_uncertainty_m]]> (_storage w))
             (files w)).
Proof.
  unfold WifiGlobalLocalisation.add_wifi_data. apply geodetic_add_data_run.
Qed.

Lemma add_scan_run wifi_data lat lon alt : forall w,
  exists w',
    add_scan md5_hexdigest wifi_data lat lon alt w = (Return tt, w') /\
    files w' = files w /\
    (forall k, default [] (_storage w !! k) <> [] ->
               default [] (_storage w' !! k) <> []) /\
    (forall wifi, wifi ∈ wifi_data ->
       default [] (_storage w' !!
         WifiGlobalLocalisation.hash_wifi md5_hexdigest (fst wifi) (snd wifi)) <> []).
Proof.
  induction wifi_data as [|wifi wifi_data IH]; intros w.
  - exists w. split_and!; [reflexivity|reflexivity|auto|set_solver].
  - unfold add_scan. cbn [for_each]. py_unfold. rewrite add_wifi_data_run. cbn zeta.
    set (ident := WifiGlobalLocalisation.hash_wifi md5_hexdigest (fst wifi) (snd wifi)).
    set (w1 := mkWorld _ (files w)).
    destruct (IH w1) as (w' & Hrun & Hfiles & Hkeep & Hnew).
    exists w'. unfold add_scan in Hrun. py_unfold. rewrite Hrun.
    assert (Hstep : forall k, default [] (_storage w !! k) <> [] ->
                              default [] (_storage w1 !! k) <> []).
    { intros k Hk. subst w1. cbn [_storage].
      destruct (decide (k = ident)) as [->|Hne].
      - rewrite lookup_insert_eq. cbn. intros Hnil.
        apply app_eq_nil in Hnil as [_ Hnil]. discriminate.
      - rewrite lookup_insert_ne by congruence. exact Hk. }
    split_and!; [reflexivity|exact Hfiles|auto|].
    intros wifi' Hin. apply elem_of_cons in Hin as [->|Hin]; [|auto].
    apply Hkeep. subst w1. cbn [_storage]. fold ident.
    rewrite lookup_insert_eq. cbn. intros Hnil.
    apply app_eq_nil in Hnil as [_ Hnil]. discriminate.
Qed.
End scan_facts.

(** X11. The flow of the example scripts: once the pairs of a scan have been
    added at some position, every pair of that scan resolves, so
    [localise_multiple] on the same non-empty scan returns the average of
    the estimates of its pairs, whatever the engine held before; on an empty
    scan it raises [ZeroDivisionError] all the same. *)
Theorem localise_multiple_after_training_on_the_scan (P : Pydantic)
    md5_hexdigest wifi_data lat lon alt (w : World GeodeticLandmark.t) :
  exists w',
    add_scan md5_hexdigest wifi_data lat lon alt w = (Return tt, w') /\
    length (resolved_estimates md5_hexdigest wifi_data w') = length wifi_data /\
    (wifi_data <> [] ->
     WifiGlobalLocalisation.localise_multiple md5_hexdigest wifi_data w' =
       (Return (average_of_resolved (resolved_estimates md5_hexdigest wifi_data w')), w')) /\
    (wifi_data = [] ->
     WifiGlobalLocalisation.localise_multiple md5_hexdigest wifi_data w' =
       (Raise ZeroDivisionError, w')).
Proof.
  destruct (add_scan_run md5_hexdigest wifi_data lat lon alt w)
    as (w' & Hrun & _ & _ & Hnew).
  exists w'. split; [exact Hrun|].
  pose proof (resolved_estimates_length md5_hexdigest wifi_data w' Hnew) as Hlen.
  split_and!.
  - exact Hlen.
  - intros Hne. apply localise_multiple_all_resolved; assumption.
  - intros ->. apply localise_multiple_run.
Qed.

(** One scan of two networks at (2,4,6) on a fresh engine. *)
Lemma localise_multiple_after_training_on_the_scan_witness :
  fst ((_ ← add_scan (H:=exact_validators) (fun text => text)
              [("home", "aa:bb"); ("cafe", "cc:dd")] 2 4 6;
        WifiGlobalLocalisation.localise_multiple (fun text => text)
          [("home", "aa:bb"); ("cafe", "cc:dd")])
         (GlobalLocalisation.__init__ ∅)) =
    Return (2%float, 4%float, 6%float).
Proof.
  destruct (localise_multiple_after_training_on_the_scan exact_validators
              (fun text => text) [("home", "aa:bb"); ("cafe", "cc:dd")] 2 4 6
              (GlobalLocalisation.__init__ ∅))%float
    as (w' & Hrun & _ & Havg & _).
  py_unfold. rewrite Hrun, Havg by discriminate.
  unfold add_scan in Hrun. cbn in Hrun. injection Hrun as <-.
  reflexivity.
Defined.

(** X12. Saving an engine and loading it back from the same path changes no
    answer: afterwards [localise] and [get_data] return for every identifier
    what they returned before, and the engine counts as many identifiers.
    Geodetic and Cartesian engine alike. *)
Theorem save_then_load_keeps_every_estimate (P : Pydantic) :
  (forall path ident (w : World GeodeticLandmark.t),
      fst ((_ ← GlobalLocalisation.save path; _ ← GlobalLocalisation.load path;
            GlobalLocalisation.localise ident) w) =
        fst (GlobalLocalisation.localise ident w) /\
      fst ((_ ← GlobalLocalisation.save path; _ ← GlobalLocalisation.load path;
            GlobalLocalisation.get_data ident) w) =
        fst (GlobalLocalisation.get_data ident w) /\
      fst ((_ ← GlobalLocalisation.save path; _ ← GlobalLocalisation.load path;
            GlobalLocalisation.__len__) w) =
        fst (GlobalLocalisation.__len__ w)) /\
  (forall path ident (w : World CartesianLandmark.t),
      fst ((_ ← CartesianLocalisation.save path; _ ← CartesianLocalisation.load path;
            CartesianLocalisation.localise ident) w) =
        fst (CartesianLocalisation.localise ident w) /\
      fst ((_ ← CartesianLocalisation.save path; _ ← CartesianLocalisation.load path;
            CartesianLocalisation.get_data ident) w) =
        fst (CartesianLocalisation.get_data ident w) /\
      fst ((_ ← CartesianLocalisation.save path; _ ← CartesianLocalisation.load path;
            CartesianLocalisation.__len__) w) =
        fst (CartesianLocalisation.__len__ w)).
Proof.
  split; intros path ident w.
  - pose proof (save_load_roundtrip path w (_storage w)
                  (fun r => geodetic_validate_dict r)) as Hrt.
    unfold GlobalLocalisation.save, GlobalLocalisation.load,
      GlobalLocalisation.get_data, GlobalLocalisation.__len__. py_unfold.
    rewrite save_run in *. cbn [snd files] in Hrt. rewrite Hrt.
    rewrite !geodetic_localise_run. split_and!; reflexivity.
  - pose proof (save_load_roundtrip path w (_storage w)
                  (fun r => cartesian_validate_dict r)) as Hrt.
    unfold CartesianLocalisation.save, CartesianLocalisation.load,
      CartesianLocalisation.get_data, CartesianLocalisation.__len__. py_unfold.
    rewrite save_run in *. cbn [snd files] in Hrt. rewrite Hrt.
    rewrite !cartesian_localise_run. split_and!; reflexivity.
Qed.

(** X13. The identifier of a network is the digest of the SSID and the MAC
    address written one after the other with nothing in between, so two
    pairs whose concatenations coincide are one landmark, whatever the
    digest: what [add_wifi_data] stores for one of them (a record with the
    coordinates given and the default uncertainties), [get_wifi_data] reads
    back for the other, after the records the landmark already had, and
    [localise_wifi] for the other has an answer. *)
Theorem pairs_with_equal_concatenation_share_a_landmark (P : Pydantic)
    md5_hexdigest ssid1 mac1 ssid2 mac2 lat lon alt (w : World GeodeticLandmark.t) :
  (ssid1 ++ mac1)%string = (ssid2 ++ mac2)%string ->
  exists w' before r,
    WifiGlobalLocalisation.add_wifi_data md5_hexdigest ssid1 mac1 lat lon alt w =
      (Return tt, w') /\
    fst (WifiGlobalLocalisation.get_wifi_data md5_hexdigest ssid2 mac2 w) = Return before /\
    fst (WifiGlobalLocalisation.get_wifi_data md5_hexdigest ssid2 mac2 w') =
      Return (before ++
              [GeodeticLandmark.mk (WifiGlobalLocalisation.hash_wifi md5_hexdigest ssid1 mac1)
                 lat lon alt 1e-6 1e-6 10]) /\
    fst (WifiGlobalLocalisation.localise_wifi md5_hexdigest ssid2 mac2 w') =
      Return (Some r).
Proof.
  intros Hcat.
  assert (Hid : WifiGlobalLocalisation.hash_wifi md5_hexdigest ssid2 mac2 =
                WifiGlobalLocalisation.hash_wifi md5_hexdigest ssid1 mac1).
  { unfold WifiGlobalLocalisation.hash_wifi. rewrite Hcat. reflexivity. }
  set (ident := WifiGlobalLocalisation.hash_wifi md5_hexdigest ssid1 mac1) in *.
  set (before := default [] (_storage w !! ident)).
  set (datum := GeodeticLandmark.mk ident lat lon alt 1e-6 1e-6 10).
  exists (mkWorld (<[ident := before ++ [datum]]> (_storage w)) (files w)),
    before, (geodetic_estimate ident (before ++ [datum])).
  split; [apply add_wifi_data_run|].
  unfold WifiGlobalLocalisation.get_wifi_data, WifiGlobalLocalisation.localise_wifi,
    GlobalLocalisation.get_data.
  rewrite !get_run, geodetic_localise_run, Hid. cbn [fst snd _storage].
  rewrite lookup_insert_eq. cbn [default].
  split_and!; [reflexivity|reflexivity|].
  destruct before; reflexivity.
Qed.

(** "ab" with "c" and "a" with "bc" are one landmark. *)
Lemma pairs_with_equal_concatenation_share_a_landmark_witness :
  fst (WifiGlobalLocalisation.get_wifi_data (fun text => text) "a" "bc"
         (snd (WifiGlobalLocalisation.add_wifi_data (H:=exact_validators)
                 (fun text => text) "ab" "c" 2 4 6 (GlobalLocalisation.__init__ ∅)))) =
    Return [GeodeticLandmark.mk "abc" 2 4 6 1e-6 1e-6 10].
Proof.
  destruct (pairs_with_equal_concatenation_share_a_landmark exact_validators
              (fun text => text) "ab" "c" "a" "bc" 2 4 6
              (GlobalLocalisation.__init__ ∅))%float
    as (w' & before & r & Hrun & Hbefore & Hafter & _); [reflexivity|].
  rewrite Hrun. cbn [snd]. rewrite Hafter.
  cbn in Hbefore. injection Hbefore as <-. reflexivity.
Defined.

(** ** Position sources of the examples *)

Lemma kwarg_some_nonempty k d v : kwarg k d = Some v -> last_bindings d <> [].
Proof.
  intros Hk Hnil. destruct d as [|[k0 v0] d]; [discriminate|].
  assert (Hin : k0 ∈ (last_bindings ((k0, v0) :: d)).*1)
    by (apply last_bindings_keys; set_solver).
  rewrite Hnil in Hin. set_solver.
Qed.

Section wigle_facts.
Variable requests_get : string -> string -> response.
Variable py_float : pyobj -> attempt float.
Hypothesis py_float_float : forall f, py_float (JFloat f) = Done f.

Lemma wigle_step_refused ssid mac rest acc :
  ok (requests_get ssid mac) = false ->
  wifi_wigle.accumulate requests_get py_float ((ssid, mac) :: rest) acc =
    wifi_wigle.accumulate requests_get py_float rest acc.
Proof.
  intros Hok. destruct acc as [[a b] n]. cbn [wifi_wigle.accumulate].
  unfold wifi_wigle.wiggle_lookup. rewrite Hok. reflexivity.
Qed.

Lemma wigle_step_fix ssid mac rest a b n lat lon :
  reported_fix (requests_get ssid mac) = Some (lat, lon) ->
  wifi_wigle.accumulate requests_get py_float ((ssid, mac) :: rest) (a, b, n) =
    wifi_wigle.accumulate requests_get py_float rest
      (PrimFloat.add a lat, PrimFloat.add b lon, S n).
Proof.
  unfold reported_fix. intros Hfix. cbn [wifi_wigle.accumulate].
  unfold wifi_wigle.wiggle_lookup, json.
  destruct (ok (requests_get ssid mac)); [|discriminate].
  destruct (body (requests_get ssid mac)) as [|[]|]; try discriminate.
  unfold mbind, attempt_bind. cbn [negb json_load of_outcome getitem].
  destruct (kwarg "results" d) as [[]|]; try discriminate.
  destruct l as [|[] l]; try discriminate.
  cbn [getitem0 py_len getitem].
  destruct (kwarg "trilat" d0) as [vlat|] eqn:Elat; [|discriminate].
  pose proof (kwarg_some_nonempty _ _ _ Elat) as Hne.
  destruct (last_bindings d0) eqn:Elb; [contradiction|].
  cbn [length Nat.eqb].
  destruct vlat; try discriminate.
  destruct (kwarg "trilong" d0) as [[]|]; try discriminate.
  injection Hfix as -> ->. rewrite !py_float_float. reflexivity.
Qed.

Lemma wigle_accumulate_run wifi_data : forall a b n,
  answered_or_refused requests_get wifi_data ->
  wifi_wigle.accumulate requests_get py_float wifi_data (a, b, n) =
    Done (foldl PrimFloat.add a (fst <$> reported_fixes requests_get wifi_data),
          foldl PrimFloat.add b (snd <$> reported_fixes requests_get wifi_data),
          length (reported_fixes requests_get wifi_data) + n).
Proof.
  induction wifi_data as [|[ssid mac] rest IH]; intros a b n Hall; [reflexivity|].
  assert (Hrest : answered_or_refused requests_get rest)
    by (intros wifi Hin; apply Hall; set_solver).
  unfold reported_fixes. cbn [omap list_omap fst snd]. fold (reported_fixes requests_get rest).
  destruct (ok (requests_get ssid mac)) eqn:Hok.
  - destruct (Hall (ssid, mac) ltac:(set_solver) Hok) as [[lat lon] Hfix].
    cbn [fst snd] in Hfix. rewrite Hfix.
    rewrite (wigle_step_fix _ _ _ _ _ _ _ _ Hfix), IH by exact Hrest.
    cbn [fmap list_fmap foldl length fst snd]. do 2 f_equal. lia.
  - rewrite wigle_step_refused by exact Hok. rewrite IH by exact Hrest.
    assert (reported_fix (requests_get ssid mac) = None) as ->
      by (unfold reported_fix; rewrite Hok; reflexivity).
    reflexivity.
Qed.
End wigle_facts.

(** X14. [get_gps_coords] of the WiGLE example, on a scan whose networks are
    each either refused by the service or answered with a fix: the networks
    refused are skipped, and the position returned is the mean of the fixes
    of the others (each sum divided by the number of fixes, not by the number
    of networks scanned) at altitude 0.0; when no network has a fix (all are
    refused, or the scan is empty) the division is by zero and it raises
    [ZeroDivisionError]. *)
Theorem wigle_position_is_the_mean_of_the_fixes
    (requests_get : string -> string -> response)
    (get_wifi_data : list (string * string)) (py_float : pyobj -> attempt float) :
  ((forall f, py_float (JFloat f) = Done f) ->
   answered_or_refused requests_get get_wifi_data ->
   wifi_wigle.get_gps_coords requests_get get_wifi_data py_float =
     match reported_fixes requests_get get_wifi_data with
     | [] => Failed (Builtin ZeroDivisionError)
     | fixes => Done (arithmetic_mean (fst <$> fixes),
                      arithmetic_mean (snd <$> fixes), 0%float)
     end) /\
  ((forall wifi, wifi ∈ get_wifi_data ->
      ok (requests_get (fst wifi) (snd wifi)) = false) ->
   wifi_wigle.get_gps_coords requests_get get_wifi_data py_float =
     Failed (Builtin ZeroDivisionError)).
Proof.
  split.
  - intros Hfloat Hall. unfold wifi_wigle.get_gps_coords.
    rewrite (wigle_accumulate_run _ _ Hfloat _ _ _ _ Hall).
    unfold mbind, attempt_bind.
    destruct (reported_fixes requests_get get_wifi_data) as [|fix1 fixes] eqn:E;
      [reflexivity|].
    unfold arithmetic_mean, float_sum. rewrite !length_fmap.
    cbn [length Nat.add truediv of_outcome]. rewrite Nat.add_0_r. reflexivity.
  - intros Hrefused. unfold wifi_wigle.get_gps_coords.
    assert (Hacc : forall acc,
      wifi_wigle.accumulate requests_get py_float get_wifi_data acc = Done acc).
    { induction get_wifi_data as [|[ssid mac] rest IH]; intros acc; [reflexivity|].
      rewrite wigle_step_refused by (apply (Hrefused (ssid, mac)); set_solver).
      apply IH. intros wifi Hin. apply Hrefused. set_solver. }
    rewrite Hacc. reflexivity.
Qed.

(** A scan of two networks of which the service knows one. *)
Lemma wigle_position_is_the_mean_of_the_fixes_witness :
  wifi_wigle.get_gps_coords home_only [("home", "aa:bb"); ("cafe", "cc:dd")]
    float_of_float = Done (2%float, 4%float, 0%float).
Proof.
  destruct (wigle_position_is_the_mean_of_the_fixes home_only
              [("home", "aa:bb"); ("cafe", "cc:dd")] float_of_float) as (Hmean & _).
  rewrite Hmean.
  - reflexivity.
  - intros f. reflexivity.
  - intros wifi Hin Hok.
    apply elem_of_cons in Hin as [->|Hin]; [eexists; reflexivity|].
    apply elem_of_cons in Hin as [->|Hin]; [discriminate|].
    apply elem_of_nil in Hin. contradiction.
Defined.

(** X15. A network the WiGLE service answers for without any result (a fine
    response whose "results" list is empty) is not skipped: [wiggle_lookup]
    raises [IndexError] on it, and so does [get_gps_coords] when such a
    network is met after networks that were refused. *)
Theorem wigle_network_without_results_raises
    (requests_get : string -> string -> response) (py_float : pyobj -> attempt float)
    (refused : list (string * string)) ssid mac rest d :
  (forall wifi, wifi ∈ refused -> ok (requests_get (fst wifi) (snd wifi)) = false) ->
  ok (requests_get ssid mac) = true ->
  body (requests_get ssid mac) = Document (JDict d) ->
  kwarg "results" d = Some (JList []) ->
  wifi_wigle.wiggle_lookup requests_get ssid mac = Failed IndexError /\
  wifi_wigle.get_gps_coords requests_get (refused ++ (ssid, mac) :: rest) py_float =
    Failed IndexError.
Proof.
  intros Hrefused Hok Hbody Hresults.
  assert (Hlookup : wifi_wigle.wiggle_lookup requests_get ssid mac = Failed IndexError).
  { unfold wifi_wigle.wiggle_lookup, json. rewrite Hok, Hbody.
    unfold mbind, attempt_bind. cbn [negb json_load of_outcome getitem].
    rewrite Hresults. reflexivity. }
  split; [exact Hlookup|].
  unfold wifi_wigle.get_gps_coords.
  assert (Hacc : forall acc,
    wifi_wigle.accumulate requests_get py_float (refused ++ (ssid, mac) :: rest) acc =
      Failed IndexError).
  { induction refused as [|[s m] refused IH]; intros acc.
    - destruct acc as [[a b] n]. cbn [app wifi_wigle.accumulate].
      rewrite Hlookup. reflexivity.
    - cbn [app]. rewrite wigle_step_refused by (apply (Hrefused (s, m)); set_solver).
      apply IH. intros wifi Hin. apply Hrefused. set_solver. }
  rewrite Hacc. reflexivity.
Qed.

(** A service without results, asked about one network. *)
Lemma wigle_network_without_results_raises_witness :
  wifi_wigle.get_gps_coords no_results [("home", "aa:bb")] float_of_float =
    Failed IndexError.
Proof.
  apply (wigle_network_without_results_raises no_results float_of_float
           [] "home" "aa:bb" [] [("results", JList [])]).
  - intros wifi Hin. apply elem_of_nil in Hin. contradiction.
  - reflexivity.
  - reflexivity.
  - reflexivity.
Defined.

(** X16. [get_gps_coords] of the OpenCelliD example returns [None] when the
    service refuses the request, and the training loop, which unpacks the
    result into three coordinates, then raises [TypeError]; when the response
    is fine and carries "lat" and "lon", it returns their float values with
    altitude 0.0, and a response without "lat" raises [KeyError]. *)
Theorem opencellid_position_or_none
    (requests_get : response) (py_float : pyobj -> attempt float) :
  (ok requests_get = false ->
   wifi_opencellid.get_gps_coords requests_get py_float = Done None /\
   wifi_opencellid.unpack_coords requests_get py_float = Failed (Builtin TypeError)) /\
  (forall d vlat vlon lat lon,
      ok requests_get = true -> body requests_get = Document (JDict d) ->
      kwarg "lat" d = Some vlat -> kwarg "lon" d = Some vlon ->
      py_float vlat = Done lat -> py_float vlon = Done lon ->
      wifi_opencellid.get_gps_coords requests_get py_float =
        Done (Some (lat, lon, 0%float)) /\
      wifi_opencellid.unpack_coords requests_get py_float = Done (lat, lon, 0%float)) /\
  (forall d,
      ok requests_get = true -> body requests_get = Document (JDict d) ->
      kwarg "lat" d = None ->
      wifi_opencellid.get_gps_coords requests_get py_float = Failed KeyError).
Proof.
  unfold wifi_opencellid.unpack_coords, wifi_opencellid.get_gps_coords, json.
  split_and!.
  - intros ->. split; reflexivity.
  - intros d vlat vlon lat lon -> -> Hlat Hlon Hflat Hflon.
    unfold mbind, attempt_bind. cbn [negb json_load of_outcome getitem].
    rewrite Hlat, Hflat, Hlon, Hflon. split; reflexivity.
  - intros d -> -> Hlat.
    unfold mbind, attempt_bind. cbn [negb json_load of_outcome getitem].
    rewrite Hlat. reflexivity.
Qed.

(** A refused request. *)
Lemma opencellid_position_or_none_witness :
  wifi_opencellid.unpack_coords (mkResponse false Malformed) float_of_float =
    Failed (Builtin TypeError).
Proof.
  destruct (opencellid_position_or_none (mkResponse false Malformed) float_of_float)
    as (Hrefused & _).
  apply Hrefused. reflexivity.
Defined.
